(** * LiveKit dashboard: server registry, session selection, hybrid authentication

    A shallow embedding of
      - [app/services/server_config.py]  (ServerConfig, ServerConfigManager),
      - [app/services/session.py]        (SessionManager),
      - [app/security/session_auth.py]   (SessionAuth, requires_admin_hybrid,
                                          get_current_user_hybrid),
      - [app/routes/auth.py]             (logout),
      - [app/utils/route_helpers.py]     (get_base_template_context),
    followed by the properties proved about them.

    Conventions.
      - A Python [str] is a Rocq [string] holding its UTF-8 bytes; a header
        value, which Starlette decodes as latin-1, is a [string] with one
        byte per character.  All literals of the program are ASCII, where the
        two readings agree.
      - Python's [None], booleans, integers and strings are the [atom]s; the
        values [json.loads] can return are [pyval]s.  JSON numbers with a
        fraction or an exponent are left out of [pyval].
      - [os.environ] is a [gmap string string]; [request.session] is a
        [gmap string atom]; the ordered dict [_servers] is an association
        list in insertion order.
      - A function that writes the session returns the new session.
      - A function that can raise returns a sum, the exception on the left. *)

From Stdlib Require Import Ascii String NArith ZArith List Bool Lia.
From stdpp Require Import gmap strings list fin_maps pretty.

Open Scope string_scope.

(** ** Python strings *)

Module Str.

(** [bool(s)] for a str. *)
Definition truthy (s : string) : bool :=
  match s with
  | EmptyString => false
  | String _ _ => true
  end.

Definition is_upper (c : ascii) : bool :=
  let n := N_of_ascii c in (65 <=? n)%N && (n <=? 90)%N.

Definition lower_char (c : ascii) : ascii :=
  if is_upper c then ascii_of_N (N_of_ascii c + 32) else c.

(** [s.lower()].  Only the ASCII letters are folded: no other character
    lower-cases to one of [t], [r], [u], [e] or to a letter of a header
    name, which is all the program compares the result with. *)
Fixpoint lower (s : string) : string :=
  match s with
  | EmptyString => EmptyString
  | String c r => String (lower_char c) (lower r)
  end.

(** [s.startswith(p)]. *)
Definition startswith (s p : string) : bool := String.prefix p s.

(** [sub in s]. *)
Fixpoint contains (sub s : string) : bool :=
  if String.prefix sub s then true
  else match s with
       | EmptyString => false
       | String _ r => contains sub r
       end.

(** [s.replace(old, empty)] for a non-empty [old]: every occurrence of [old],
    scanning from the left without overlap, is dropped.  [skip] counts the
    characters of the current occurrence still to be dropped. *)
Fixpoint remove_from (old : string) (skip : nat) (s : string) : string :=
  match s with
  | EmptyString => EmptyString
  | String c r =>
      match skip with
      | S k => remove_from old k r
      | O =>
          if String.prefix old s
          then remove_from old (Nat.pred (String.length old)) r
          else String c (remove_from old 0 r)
      end
  end.

Definition remove (old s : string) : string := remove_from old 0 s.

(** [s.split(sep, 1)] for a one-character [sep], when it has two parts:
    the text before the first [sep] and the text after it.  [None] when
    [sep] does not occur (the split then has a single part). *)
Fixpoint split_once (sep : ascii) (s : string) : option (string * string) :=
  match s with
  | EmptyString => None
  | String c r =>
      if Ascii.eqb c sep then Some (EmptyString, r)
      else match split_once sep r with
           | Some (a, b) => Some (String c a, b)
           | None => None
           end
  end.

End Str.

(** ** Python values *)

(** The hashable scalars: [None], [bool], [int], [str]. *)
Inductive atom : Type :=
| ANone
| ABool (b : bool)
| AInt (n : Z)
| AStr (s : string).

#[local] Set Warnings "-register-all".

(** What [json.loads] returns.  A [VDict] lists the members in the order of
    the text; a later member with the same name overrides an earlier one. *)
Inductive pyval : Type :=
| VAtom (a : atom)
| VList (l : list pyval)
| VDict (m : list (string * pyval)).

Coercion VAtom : atom >-> pyval.

Module Py.

(** [bool(a)]. *)
Definition atom_truthy (a : atom) : bool :=
  match a with
  | ANone => false
  | ABool b => b
  | AInt n => negb (n =? 0)%Z
  | AStr s => Str.truthy s
  end.

Definition truthy (v : pyval) : bool :=
  match v with
  | VAtom a => atom_truthy a
  | VList l => match l with [] => false | _ :: _ => true end
  | VDict m => match m with [] => false | _ :: _ => true end
  end.

(** [a == b] on hashable scalars: [True == 1] and [False == 0]. *)
Definition atom_eqb (a b : atom) : bool :=
  match a, b with
  | ANone, ANone => true
  | ABool x, ABool y => Bool.eqb x y
  | AInt x, AInt y => (x =? y)%Z
  | ABool x, AInt y | AInt y, ABool x => (Z.b2z x =? y)%Z
  | AStr x, AStr y => String.eqb x y
  | _, _ => false
  end.

(** [hash(v)] succeeds on scalars and raises [TypeError] on lists and
    dicts. *)
Definition as_key (v : pyval) : option atom :=
  match v with
  | VAtom a => Some a
  | _ => None
  end.

(** An insertion-ordered [dict] with hashable keys. *)
Definition dict (V : Type) : Type := list (atom * V).

(** [d.get(k)]. *)
Fixpoint dict_get {V} (d : dict V) (k : atom) : option V :=
  match d with
  | [] => None
  | (k', v) :: r => if atom_eqb k' k then Some v else dict_get r k
  end.

(** [d[k] = v]: an existing key keeps its place (and its key object), a
    new one goes last. *)
Fixpoint dict_set {V} (d : dict V) (k : atom) (v : V) : dict V :=
  match d with
  | [] => [(k, v)]
  | (k', v') :: r =>
      if atom_eqb k' k then (k', v) :: r else (k', v') :: dict_set r k v
  end.

(** Member lookup in a parsed JSON object: the last member wins. *)
Fixpoint member (m : list (string * pyval)) (name : string) : option pyval :=
  match m with
  | [] => None
  | (n, v) :: r =>
      match member r name with
      | Some w => Some w
      | None => if String.eqb n name then Some v else None
      end
  end.

End Py.

(** ** Library codecs *)

Module Codec.

(** [binascii]'s decoding table: the value of a base64 digit. *)
Definition table_a2b_base64 (c : ascii) : option N :=
  let n := N_of_ascii c in
  if (65 <=? n)%N && (n <=? 90)%N then Some (n - 65)%N
  else if (97 <=? n)%N && (n <=? 122)%N then Some (n - 71)%N
  else if (48 <=? n)%N && (n <=? 57)%N then Some (n + 4)%N
  else if (n =? 43)%N then Some 62%N
  else if (n =? 47)%N then Some 63%N
  else None.

Definition BASE64_PAD : ascii := ascii_of_N 61.

(** [binascii.a2b_base64] in its default, non-strict mode: characters
    outside the alphabet are skipped, a pad that completes a quad ends the
    input, and an incomplete quad at the end is an error. *)
Fixpoint a2b_base64 (ascii_data : string) (quad_pos : nat) (leftchar : N)
    (pads : nat) : option string :=
  match ascii_data with
  | EmptyString => match quad_pos with O => Some EmptyString | _ => None end
  | String this_ch rest =>
      if Ascii.eqb this_ch BASE64_PAD then
        if (2 <=? quad_pos)%nat then
          if (4 <=? quad_pos + S pads)%nat then Some EmptyString
          else a2b_base64 rest quad_pos leftchar (S pads)
        else a2b_base64 rest quad_pos leftchar pads
      else
        match table_a2b_base64 this_ch with
        | None => a2b_base64 rest quad_pos leftchar pads
        | Some v =>
            match quad_pos with
            | 0%nat => a2b_base64 rest 1 v 0
            | 1%nat =>
                String (ascii_of_N (N.lor (N.shiftl leftchar 2) (N.shiftr v 4)))
                  <$> a2b_base64 rest 2 (N.land v 15) 0
            | 2%nat =>
                String (ascii_of_N (N.lor (N.shiftl leftchar 4) (N.shiftr v 2)))
                  <$> a2b_base64 rest 3 (N.land v 3) 0
            | _ =>
                String (ascii_of_N (N.lor (N.shiftl leftchar 6) v))
                  <$> a2b_base64 rest 0 0 0
            end
        end
  end.

Fixpoint is_ascii (s : string) : bool :=
  match s with
  | EmptyString => true
  | String c r => (N_of_ascii c <? 128)%N && is_ascii r
  end.

(** [base64.b64decode(s)] for a str [s]: [ValueError] on a non-ASCII
    character, [binascii.Error] on bad padding; both are [None]. *)
Definition b64decode (s : string) : option string :=
  if is_ascii s then a2b_base64 s 0 0 0 else None.

Definition in_range (lo hi : N) (c : ascii) : bool :=
  let n := N_of_ascii c in (lo <=? n)%N && (n <=? hi)%N.

(** Well-formed UTF-8: shortest forms only, no surrogates, at most
    U+10FFFF. *)
Fixpoint utf8_valid (s : string) : bool :=
  match s with
  | EmptyString => true
  | String b0 r0 =>
      let n := N_of_ascii b0 in
      if (n <? 128)%N then utf8_valid r0
      else if in_range 194 223 b0 then
        match r0 with
        | String b1 r1 => in_range 128 191 b1 && utf8_valid r1
        | _ => false
        end
      else if in_range 224 239 b0 then
        match r0 with
        | String b1 (String b2 r2) =>
            in_range (if (n =? 224)%N then 160 else 128)
                     (if (n =? 237)%N then 159 else 191) b1
            && in_range 128 191 b2 && utf8_valid r2
        | _ => false
        end
      else if in_range 240 244 b0 then
        match r0 with
        | String b1 (String b2 (String b3 r3)) =>
            in_range (if (n =? 240)%N then 144 else 128)
                     (if (n =? 244)%N then 143 else 191) b1
            && in_range 128 191 b2 && in_range 128 191 b3 && utf8_valid r3
        | _ => false
        end
      else false
  end.

(** [b.decode("utf-8")]: [UnicodeDecodeError] is [None]. *)
Definition decode_utf8 (b : string) : option string :=
  if utf8_valid b then Some b else None.

(** [s.encode("utf8")]: a str read from the environment can hold bytes
    that are not UTF-8 (as lone surrogates), and then
    [UnicodeEncodeError] is raised: [None]. *)
Definition encode_utf8 (s : string) : option string :=
  if utf8_valid s then Some s else None.

End Codec.

(** ** app/services/server_config.py *)

(** The exceptions the configuration code raises or catches. *)
Inductive exn : Type :=
| TypeError
| ValueError (msg : string).

Module ServerConfig.

(** The dataclass.  The annotations are not enforced by Python, so a field
    holds whatever value the caller passed. *)
Record t : Type := mk {
  id : pyval;
  name : pyval;
  url : pyval;
  api_key : pyval;
  api_secret : pyval;
  sip_enabled : pyval;
  description : pyval
}.

Definition __post_init__ (self : t) : exn + unit :=
  if negb (Py.truthy (id self)) then inl (ValueError "Server ID is required")
  else if negb (Py.truthy (name self)) then inl (ValueError "Server name is required")
  else if negb (Py.truthy (url self)) then inl (ValueError "Server URL is required")
  else if negb (Py.truthy (api_key self)) then inl (ValueError "API key is required")
  else if negb (Py.truthy (api_secret self)) then inl (ValueError "API secret is required")
  else inr tt.

(** [ServerConfig(id=..., ...)]: the generated [__init__] stores the
    fields and runs [__post_init__]. *)
Definition __init__ (id name url api_key api_secret sip_enabled description : pyval)
    : exn + t :=
  let self := mk id name url api_key api_secret sip_enabled description in
  match __post_init__ self with
  | inl e => inl e
  | inr _ => inr self
  end.

Definition field_names : list string :=
  ["id"; "name"; "url"; "api_key"; "api_secret"; "sip_enabled"; "description"].

(** [ServerConfig] called with the keyword arguments of [server_data]:
    [TypeError] unless [server_data] is a
    mapping whose names are all fields and include the five required
    ones; [sip_enabled] defaults to [False], [description] to [None]. *)
Definition from_kwargs (server_data : pyval) : exn + t :=
  match server_data with
  | VDict m =>
      if forallb (fun kv => existsb (String.eqb (fst kv)) field_names) m then
        match Py.member m "id", Py.member m "name", Py.member m "url",
              Py.member m "api_key", Py.member m "api_secret" with
        | Some i, Some n, Some u, Some k, Some s =>
            __init__ i n u k s
              (default (VAtom (ABool false)) (Py.member m "sip_enabled"))
              (default (VAtom ANone) (Py.member m "description"))
        | _, _, _, _, _ => inl TypeError
        end
      else inl TypeError
  | _ => inl TypeError
  end.

End ServerConfig.

Module ServerConfigManager.

Record t : Type := mk {
  _servers : Py.dict ServerConfig.t;
  _default_server_id : atom
}.

(** The state [__init__] sets before it loads: no server, no default. *)
Definition empty : t := mk [] ANone.

(** Truth value of an [Optional[str]] read from the environment. *)
Definition set (o : option string) : bool :=
  match o with
  | Some s => Str.truthy s
  | None => false
  end.

(** [for server_data in servers_data]: the items of the parsed document,
    [None] when it is not iterable.  The items of an object (its names)
    and of a string (its characters) are strs, on each of which the loop
    body raises [TypeError]. *)
Definition items (servers_data : pyval) : option (list pyval) :=
  match servers_data with
  | VList l => Some l
  | VDict m => Some (map (fun kv => VAtom (AStr (fst kv))) m)
  | VAtom (AStr s) =>
      Some (map (fun c => VAtom (AStr (String c EmptyString))) (list_ascii_of_string s))
  | VAtom _ => None
  end.

(** Method 1, the body of the loop over the entries.  The second
    component is the exception that stopped the loop, if any; the
    entries stored before it stay in the registry. *)
Fixpoint load_entries (entries : list pyval) (self : t) : t * option exn :=
  match entries with
  | [] => (self, None)
  | server_data :: rest =>
      match ServerConfig.from_kwargs server_data with
      | inl e => (self, Some e)
      | inr server =>
          match Py.as_key (ServerConfig.id server) with
          | None => (self, Some TypeError)
          | Some key =>
              let servers := Py.dict_set (_servers self) key server in
              let default_id :=
                if negb (Py.atom_truthy (_default_server_id self)) then key
                else _default_server_id self in
              load_entries rest (mk servers default_id)
          end
      end
  end.

(** Method 2, the flat primary variables. *)
Definition load_primary (env : gmap string string) (self : t) : exn + t :=
  let primary_url := env !! "LIVEKIT_URL" in
  let primary_key := env !! "LIVEKIT_API_KEY" in
  let primary_secret := env !! "LIVEKIT_API_SECRET" in
  let primary_sip :=
    String.eqb (Str.lower (default "false" (env !! "ENABLE_SIP"))) "true" in
  if set primary_url && set primary_key && set primary_secret then
    match ServerConfig.__init__
            (AStr "primary") (AStr "Primary Server")
            (AStr (default EmptyString primary_url)) (AStr (default EmptyString primary_key))
            (AStr (default EmptyString primary_secret)) (ABool primary_sip)
            (AStr "Primary LiveKit server") with
    | inl e => inl e
    | inr primary_server =>
        inr (mk (Py.dict_set (_servers self) (AStr "primary") primary_server)
                (AStr "primary"))
    end
  else inr self.

(** Method 3, the [while True] loop over the numbered groups.  [fuel]
    bounds the number of iterations; [None] is an exhausted bound. *)
Fixpoint load_numbered (fuel : nat) (env : gmap string string)
    (server_index : nat) (self : t) : option (exn + t) :=
  match fuel with
  | O => None
  | S fuel' =>
      let n := pretty server_index in
      let server_url := env !! ("LIVEKIT_URL_" +:+ n) in
      let server_key := env !! ("LIVEKIT_API_KEY_" +:+ n) in
      let server_secret := env !! ("LIVEKIT_API_SECRET_" +:+ n) in
      let server_name := default ("Server " +:+ n) (env !! ("LIVEKIT_NAME_" +:+ n)) in
      let server_sip :=
        String.eqb (Str.lower (default "false" (env !! ("ENABLE_SIP_" +:+ n)))) "true" in
      if negb (set server_url && set server_key && set server_secret) then
        Some (inr self)
      else
        let server_id := "server_" +:+ n in
        match ServerConfig.__init__
                (AStr server_id) (AStr server_name)
                (AStr (default EmptyString server_url)) (AStr (default EmptyString server_key))
                (AStr (default EmptyString server_secret)) (ABool server_sip)
                (AStr ("LiveKit server " +:+ n)) with
        | inl e => Some (inl e)
        | inr server =>
            let servers := Py.dict_set (_servers self) (AStr server_id) server in
            let default_id :=
              if negb (Py.atom_truthy (_default_server_id self)) then AStr server_id
              else _default_server_id self in
            load_numbered fuel' env (S server_index) (mk servers default_id)
        end
  end.

Definition no_configuration : exn :=
  ValueError ("No LiveKit server configurations found. Please set LIVEKIT_URL, "
    +:+ "LIVEKIT_API_KEY, and LIVEKIT_API_SECRET environment variables, "
    +:+ "or provide LIVEKIT_SERVERS JSON configuration.").

Section Loading.

(** [json.loads], a library function: [None] when it raises
    [JSONDecodeError] (or another of the exceptions the loader
    catches).  An exception the loader does not catch, such as the
    [RecursionError] of a text nested too deeply, has no place in this
    type: [construct], further down, sets such a call apart. *)
Variable json_loads : string -> option pyval.

(** Method 1.  The boolean is [true] when the [return] after the loop
    was reached; otherwise the warning was printed, or
    [LIVEKIT_SERVERS] is unset or empty, and loading goes on. *)
Definition load_json (env : gmap string string) (self : t) : t * bool :=
  match env !! "LIVEKIT_SERVERS" with
  | Some servers_json =>
      if Str.truthy servers_json then
        match json_loads servers_json with
        | None => (self, false)
        | Some servers_data =>
            match items servers_data with
            | None => (self, false)
            | Some entries =>
                match load_entries entries self with
                | (self', None) => (self', true)
                | (self', Some _) => (self', false)
                end
            end
        end
      else (self, false)
  | None => (self, false)
  end.

(** [_load_configurations].  The numbered scan gets one more iteration
    than the environment has variables, which it cannot use up
    (see [_load_configurations_total]). *)
Definition _load_configurations (env : gmap string string) (self : t)
    : option (exn + t) :=
  match load_json env self with
  | (self1, true) => Some (inr self1)
  | (self1, false) =>
      match load_primary env self1 with
      | inl e => Some (inl e)
      | inr self2 =>
          match load_numbered (S (size env)) env 1 self2 with
          | None => None
          | Some (inl e) => Some (inl e)
          | Some (inr self3) =>
              match _servers self3 with
              | [] => Some (inl no_configuration)
              | _ :: _ => Some (inr self3)
              end
          end
      end
  end.

(** [ServerConfigManager()]. *)
Definition __init__ (env : gmap string string) : option (exn + t) :=
  _load_configurations env empty.

End Loading.

Definition get_server (self : t) (server_id : atom) : option ServerConfig.t :=
  Py.dict_get (_servers self) server_id.

Definition get_default_server (self : t) : option ServerConfig.t :=
  if Py.atom_truthy (_default_server_id self)
  then Py.dict_get (_servers self) (_default_server_id self)
  else None.

Definition list_servers (self : t) : list ServerConfig.t :=
  map snd (_servers self).

Definition get_server_ids (self : t) : list atom :=
  map fst (_servers self).

Definition has_multiple_servers (self : t) : bool :=
  (1 <? length (_servers self))%nat.

Definition set_default_server (self : t) (server_id : atom) : t * bool :=
  if existsb (fun kv => Py.atom_eqb (fst kv) server_id) (_servers self)
  then (mk (_servers self) server_id, true)
  else (self, false).

End ServerConfigManager.

(** ** Requests *)

(** A request, as far as the program reads it: the raw headers (names in
    lower case, as ASGI delivers them) and the session dict. *)
Record Request : Type := mkRequest {
  headers : list (string * string);
  session : gmap string atom
}.

(** [request.headers.get(key, default)]: Starlette compares the lower-cased
    key with the raw names and returns the first match. *)
Fixpoint headers_get (hs : list (string * string)) (key : string) (dflt : string)
    : string :=
  match hs with
  | [] => dflt
  | (k, v) :: r => if String.eqb k (Str.lower key) then v else headers_get r key dflt
  end.

(** The same request with another session dict. *)
Definition with_session (request : Request) (s : gmap string atom) : Request :=
  mkRequest (headers request) s.

(** ** app/services/session.py *)

Module SessionManager.

Definition SESSION_SERVER_KEY : string := "selected_server_id".

(** [session.get(key)] is [None] for a missing key. *)
Definition get_selected_server_id (request : Request) : atom :=
  default ANone (session request !! SESSION_SERVER_KEY).

Definition set_selected_server_id (manager : ServerConfigManager.t)
    (request : Request) (server_id : string) : bool * gmap string atom :=
  match ServerConfigManager.get_server manager (AStr server_id) with
  | None => (false, session request)
  | Some _ => (true, <[SESSION_SERVER_KEY := AStr server_id]> (session request))
  end.

Definition get_current_server_id (manager : ServerConfigManager.t)
    (request : Request) : atom :=
  let server_id := get_selected_server_id request in
  if Py.atom_truthy server_id then
    match ServerConfigManager.get_server manager server_id with
    | Some _ => server_id
    | None => ANone
    end
  else ANone.

Definition clear_server_selection (request : Request) : gmap string atom :=
  match session request !! SESSION_SERVER_KEY with
  | Some _ => delete SESSION_SERVER_KEY (session request)
  | None => session request
  end.

Definition has_server_selection (manager : ServerConfigManager.t)
    (request : Request) : bool :=
  match get_current_server_id manager request with
  | ANone => false
  | _ => true
  end.

End SessionManager.

(** ** app/security/session_auth.py *)

Record HTTPException : Type := mkHTTPException {
  status_code : Z;
  detail : string;
  exc_headers : list (string * string)
}.

Module SessionAuth.

Definition SESSION_USER_KEY : string := "authenticated_user".
Definition SESSION_AUTH_KEY : string := "is_authenticated".

(** [secrets.compare_digest] on two byte strings is their equality.
    [None] when one of the [encode] calls raises. *)
Definition verify_credentials (env : gmap string string)
    (username password : string) : option bool :=
  let correct_username := default "admin" (env !! "ADMIN_USERNAME") in
  let correct_password := default "changeme" (env !! "ADMIN_PASSWORD") in
  match Codec.encode_utf8 username, Codec.encode_utf8 correct_username with
  | Some u, Some cu =>
      let username_correct := String.eqb u cu in
      match Codec.encode_utf8 password, Codec.encode_utf8 correct_password with
      | Some p, Some cp =>
          let password_correct := String.eqb p cp in
          Some (username_correct && password_correct)
      | _, _ => None
      end
  | _, _ => None
  end.

Definition login_user (request : Request) (username : string)
    : bool * gmap string atom :=
  (true,
   <[SESSION_USER_KEY := AStr username]>
     (<[SESSION_AUTH_KEY := ABool true]> (session request))).

(** [request.session.clear()]. *)
Definition logout_user (request : Request) : gmap string atom := ∅.

Definition is_authenticated (request : Request) : atom :=
  default (ABool false) (session request !! SESSION_AUTH_KEY).

Definition get_current_user (request : Request) : atom :=
  if Py.atom_truthy (is_authenticated request)
  then default ANone (session request !! SESSION_USER_KEY)
  else ANone.

End SessionAuth.

Definition HTTP_303_SEE_OTHER : Z := 303.
Definition HTTP_401_UNAUTHORIZED : Z := 401.

Definition requires_auth (request : Request) : HTTPException + atom :=
  if negb (Py.atom_truthy (SessionAuth.is_authenticated request)) then
    let accept_header := headers_get (headers request) "accept" EmptyString in
    if Str.contains "text/html" accept_header then
      inl (mkHTTPException HTTP_303_SEE_OTHER "Authentication required"
             [("Location", "/login")])
    else
      inl (mkHTTPException HTTP_401_UNAUTHORIZED "Authentication required"
             [("WWW-Authenticate", "Session")])
  else inr (SessionAuth.get_current_user request).

Definition get_current_user_optional (request : Request) : atom :=
  SessionAuth.get_current_user request.

(** The colon at which [decoded.split(":", 1)] cuts. *)
Definition colon : ascii := ascii_of_N 58.

(** What is raised when no channel authenticates the request. *)
Definition authentication_required (request : Request) : HTTPException :=
  let accept_header := headers_get (headers request) "accept" EmptyString in
  if Str.contains "text/html" accept_header then
    mkHTTPException HTTP_303_SEE_OTHER "Authentication required"
      [("Location", "/login")]
  else
    mkHTTPException HTTP_401_UNAUTHORIZED "Authentication required"
      [("WWW-Authenticate", "Basic, Session")].

(** Every way out of the [try] block other than its [return] (a decoder
    that raises, an unpacking that fails, credentials that do not verify)
    reaches the code after it: [except Exception: pass]. *)
Definition requires_admin_hybrid (env : gmap string string) (request : Request)
    : (HTTPException + atom) * gmap string atom :=
  if Py.atom_truthy (SessionAuth.is_authenticated request) then
    (inr (SessionAuth.get_current_user request), session request)
  else
    let no_valid_authentication :=
      (inl (authentication_required request), session request) in
    let auth_header := headers_get (headers request) "Authorization" EmptyString in
    if Str.startswith auth_header "Basic " then
      let encoded := Str.remove "Basic " auth_header in
      match Codec.b64decode encoded with
      | None => no_valid_authentication
      | Some raw =>
          match Codec.decode_utf8 raw with
          | None => no_valid_authentication
          | Some decoded =>
              match Str.split_once colon decoded with
              | None => no_valid_authentication
              | Some (username, password) =>
                  match SessionAuth.verify_credentials env username password with
                  | Some true =>
                      let '(_, session') := SessionAuth.login_user request username in
                      (inr (AStr username), session')
                  | _ => no_valid_authentication
                  end
              end
          end
      end
    else no_valid_authentication.

Definition get_current_user_hybrid (request : Request) : atom :=
  let user := SessionAuth.get_current_user request in
  if Py.atom_truthy user then user
  else
    let auth_header := headers_get (headers request) "Authorization" EmptyString in
    if Str.startswith auth_header "Basic " then
      let encoded := Str.remove "Basic " auth_header in
      match Codec.b64decode encoded with
      | None => ANone
      | Some raw =>
          match Codec.decode_utf8 raw with
          | None => ANone
          | Some decoded =>
              match Str.split_once colon decoded with
              | None => ANone
              | Some (username, _) => AStr username
              end
          end
      end
    else ANone.

(** ** app/routes/auth.py *)

(** The session after the [logout] route: the selection is cleared, then
    the whole session. *)
Definition logout (request : Request) : gmap string atom :=
  let s1 := SessionManager.clear_server_selection request in
  SessionAuth.logout_user (with_session request s1).

(** ** app/utils/route_helpers.py *)

Record TemplateContext : Type := mkTemplateContext {
  current_user : atom;
  ctx_sip_enabled : pyval;
  csrf_token : string;
  servers : list ServerConfig.t;
  current_server_id : atom;
  current_server_config : option ServerConfig.t
}.

Section RouteHelpers.

(** [create_livekit_client(id).sip_enabled], from [app/services/livekit.py]
    (not among the sources): [None] when it raises. *)
Variable client_sip_enabled : atom -> option pyval.

(** [get_csrf_token], from [app/security/csrf.py] (not among the
    sources). *)
Variable get_csrf_token : Request -> string.

Definition get_base_template_context (manager : ServerConfigManager.t)
    (request : Request) : TemplateContext :=
  let current_user := get_current_user_hybrid request in
  let servers := ServerConfigManager.list_servers manager in
  let current_server_id := SessionManager.get_current_server_id manager request in
  let current_server_config :=
    if Py.atom_truthy current_server_id
    then ServerConfigManager.get_server manager current_server_id
    else None in
  let sip_enabled :=
    if Py.atom_truthy current_server_id
    then default (VAtom (ABool false)) (client_sip_enabled current_server_id)
    else VAtom (ABool false) in
  mkTemplateContext current_user sip_enabled (get_csrf_token request)
    servers current_server_id current_server_config.

End RouteHelpers.

(** ** A JSON decoder for the examples *)

(** [json_loads] is a parameter of the loader.  The closed examples below
    instantiate it with this decoder of a fragment of JSON: [null], [true],
    [false], integers, strings without escapes, arrays and objects.  On a
    text of the fragment it returns what [json.loads] returns; any other
    text is refused. *)
Module JsonLite.

Definition quote : ascii := ascii_of_N 34.
Definition backslash : ascii := ascii_of_N 92.

Definition is_ws (c : ascii) : bool :=
  let n := N_of_ascii c in
  (n =? 32)%N || (n =? 9)%N || (n =? 10)%N || (n =? 13)%N.

Fixpoint skip_ws (s : string) : string :=
  match s with
  | String c r => if is_ws c then skip_ws r else s
  | EmptyString => s
  end.

(** The text up to the closing quote, and the text after it. *)
Fixpoint scan_string (s : string) : option (string * string) :=
  match s with
  | EmptyString => None
  | String c r =>
      if Ascii.eqb c quote then Some (EmptyString, r)
      else if Ascii.eqb c backslash || (N_of_ascii c <? 32)%N then None
      else match scan_string r with
           | Some (a, rest) => Some (String c a, rest)
           | None => None
           end
  end.

Definition is_digit (c : ascii) : bool :=
  let n := N_of_ascii c in (48 <=? n)%N && (n <=? 57)%N.

(** The digits at the head of [s], read in base ten onto [acc]. *)
Fixpoint scan_digits (s : string) (acc : Z) : Z * string :=
  match s with
  | String c r =>
      if is_digit c
      then scan_digits r (10 * acc + Z.of_N (N_of_ascii c - 48))%Z
      else (acc, s)
  | EmptyString => (acc, s)
  end.

(** A number may not go on as a fraction or an exponent. *)
Definition ends_number (s : string) : bool :=
  match s with
  | String c _ =>
      negb (Ascii.eqb c "." || Ascii.eqb c "e" || Ascii.eqb c "E")
  | EmptyString => true
  end.

(** An integer without sign: a single [0] or digits that do not start
    with [0]. *)
Definition scan_natural (s : string) : option (Z * string) :=
  match s with
  | String c r =>
      if Ascii.eqb c "0" then
        if ends_number r then Some (0%Z, r) else None
      else if is_digit c then
        let '(n, rest) := scan_digits s 0 in
        if ends_number rest then Some (n, rest) else None
      else None
  | EmptyString => None
  end.

Definition strip (p s : string) : option string :=
  if String.prefix p s
  then Some (String.substring (String.length p)
               (String.length s - String.length p) s)
  else None.

Fixpoint value (fuel : nat) (s : string) : option (pyval * string) :=
  match fuel with
  | O => None
  | S f =>
      match s with
      | EmptyString => None
      | String c r =>
          if Ascii.eqb c quote then
            match scan_string r with
            | Some (a, rest) => Some (VAtom (AStr a), rest)
            | None => None
            end
          else if Ascii.eqb c "[" then
            match skip_ws r with
            | String "]" rest => Some (VList [], rest)
            | r' =>
                match elements f r' with
                | Some (l, rest) => Some (VList l, rest)
                | None => None
                end
            end
          else if Ascii.eqb c "{" then
            match skip_ws r with
            | String "}" rest => Some (VDict [], rest)
            | r' =>
                match members f r' with
                | Some (m, rest) => Some (VDict m, rest)
                | None => None
                end
            end
          else if Ascii.eqb c "-" then
            match scan_natural r with
            | Some (n, rest) => Some (VAtom (AInt (- n)), rest)
            | None => None
            end
          else
            match strip "null" s, strip "true" s, strip "false" s with
            | Some rest, _, _ => Some (VAtom ANone, rest)
            | _, Some rest, _ => Some (VAtom (ABool true), rest)
            | _, _, Some rest => Some (VAtom (ABool false), rest)
            | _, _, _ =>
                match scan_natural s with
                | Some (n, rest) => Some (VAtom (AInt n), rest)
                | None => None
                end
            end
      end
  end
with elements (fuel : nat) (s : string) : option (list pyval * string) :=
  match fuel with
  | O => None
  | S f =>
      match value f s with
      | Some (v, r) =>
          match skip_ws r with
          | String "," r' =>
              match elements f (skip_ws r') with
              | Some (l, rest) => Some (v :: l, rest)
              | None => None
              end
          | String "]" rest => Some ([v], rest)
          | _ => None
          end
      | None => None
      end
  end
with members (fuel : nat) (s : string)
    : option (list (string * pyval) * string) :=
  match fuel with
  | O => None
  | S f =>
      match s with
      | String c r =>
          if Ascii.eqb c quote then
            match scan_string r with
            | Some (key, r1) =>
                match skip_ws r1 with
                | String ":" r2 =>
                    match value f (skip_ws r2) with
                    | Some (v, r3) =>
                        match skip_ws r3 with
                        | String "," r4 =>
                            match members f (skip_ws r4) with
                            | Some (m, rest) => Some ((key, v) :: m, rest)
                            | None => None
                            end
                        | String "}" rest => Some ([(key, v)], rest)
                        | _ => None
                        end
                    | None => None
                    end
                | _ => None
                end
            | None => None
            end
          else None
      | EmptyString => None
      end
  end.

Definition loads (s : string) : option pyval :=
  match value (2 * String.length s + 2) (skip_ws s) with
  | Some (v, rest) =>
      match skip_ws rest with
      | EmptyString => Some v
      | _ => None
      end
  | None => None
  end.

(** [q s] is [s] between double quotes. *)
Definition q (s : string) : string :=
  String quote s +:+ String quote EmptyString.

End JsonLite.

(** ** Notions used in the statements *)

(** The variables of the numbered group [n]. *)
Definition url_var (n : nat) : string := "LIVEKIT_URL_" +:+ pretty n.
Definition key_var (n : nat) : string := "LIVEKIT_API_KEY_" +:+ pretty n.
Definition secret_var (n : nat) : string := "LIVEKIT_API_SECRET_" +:+ pretty n.
Definition name_var (n : nat) : string := "LIVEKIT_NAME_" +:+ pretty n.
Definition sip_var (n : nat) : string := "ENABLE_SIP_" +:+ pretty n.
Definition server_id (n : nat) : string := "server_" +:+ pretty n.

(** The three primary variables are set (present and not empty). *)
Definition primary_set (env : gmap string string) : bool :=
  ServerConfigManager.set (env !! "LIVEKIT_URL")
  && ServerConfigManager.set (env !! "LIVEKIT_API_KEY")
  && ServerConfigManager.set (env !! "LIVEKIT_API_SECRET").

(** URL, key and secret of group [n] are set (present and not empty). *)
Definition group_set (env : gmap string string) (n : nat) : bool :=
  ServerConfigManager.set (env !! url_var n)
  && ServerConfigManager.set (env !! key_var n)
  && ServerConfigManager.set (env !! secret_var n).

(** [LIVEKIT_NAME_n] is not set to the empty string. *)
Definition name_usable (env : gmap string string) (n : nat) : bool :=
  match env !! name_var n with
  | Some s => Str.truthy s
  | None => true
  end.

(** The profile the numbered scan builds for group [n]. *)
Definition numbered_profile (env : gmap string string) (n : nat) : ServerConfig.t :=
  ServerConfig.mk
    (AStr (server_id n))
    (AStr (default ("Server " +:+ pretty n) (env !! name_var n)))
    (AStr (default EmptyString (env !! url_var n)))
    (AStr (default EmptyString (env !! key_var n)))
    (AStr (default EmptyString (env !! secret_var n)))
    (ABool (String.eqb (Str.lower (default "false" (env !! sip_var n))) "true"))
    (AStr ("LiveKit server " +:+ pretty n)).

(** The profile built from the primary variables. *)
Definition primary_profile (env : gmap string string) : ServerConfig.t :=
  ServerConfig.mk
    (AStr "primary") (AStr "Primary Server")
    (AStr (default EmptyString (env !! "LIVEKIT_URL")))
    (AStr (default EmptyString (env !! "LIVEKIT_API_KEY")))
    (AStr (default EmptyString (env !! "LIVEKIT_API_SECRET")))
    (ABool (String.eqb (Str.lower (default "false" (env !! "ENABLE_SIP"))) "true"))
    (AStr "Primary LiveKit server").

Definition nonempty_str (o : option pyval) : bool :=
  match o with
  | Some (VAtom (AStr s)) => Str.truthy s
  | _ => false
  end.

(** A well-formed entry of [LIVEKIT_SERVERS]: an object with the fields
    [id], [name], [url], [api_key], [api_secret] (non-empty strings) and,
    optionally, [sip_enabled] (a boolean) and [description] (a string or
    null), and no other member. *)
Definition well_formed_entry (e : pyval) : bool :=
  match e with
  | VDict m =>
      forallb (fun kv => existsb (String.eqb (fst kv)) ServerConfig.field_names) m
      && nonempty_str (Py.member m "id")
      && nonempty_str (Py.member m "name")
      && nonempty_str (Py.member m "url")
      && nonempty_str (Py.member m "api_key")
      && nonempty_str (Py.member m "api_secret")
      && match Py.member m "sip_enabled" with
         | None | Some (VAtom (ABool _)) => true
         | _ => false
         end
      && match Py.member m "description" with
         | None | Some (VAtom (AStr _)) | Some (VAtom ANone) => true
         | _ => false
         end
  | _ => false
  end.

(** The id of an entry. *)
Definition entry_id (e : pyval) : string :=
  match e with
  | VDict m =>
      match Py.member m "id" with
      | Some (VAtom (AStr s)) => s
      | _ => EmptyString
      end
  | _ => EmptyString
  end.

(** No key of [d] equals [k]. *)
Definition fresh {V} (d : Py.dict V) (k : atom) : Prop :=
  Forall (fun kv => Py.atom_eqb (fst kv) k = false) d.

(** The state after the numbered scan has stored group [n]. *)
Definition store_numbered (env : gmap string string) (n : nat)
    (self : ServerConfigManager.t) : ServerConfigManager.t :=
  ServerConfigManager.mk
    (Py.dict_set (ServerConfigManager._servers self) (AStr (server_id n))
       (numbered_profile env n))
    (if negb (Py.atom_truthy (ServerConfigManager._default_server_id self))
     then AStr (server_id n)
     else ServerConfigManager._default_server_id self).

(** The entries the scan appends for the groups [i], ..., [i + k - 1]. *)
Definition numbered_entries (env : gmap string string) (i k : nat)
    : Py.dict ServerConfig.t :=
  map (fun j => (AStr (server_id j), numbered_profile env j)) (seq i k).

(** What the loop over the JSON list stores for an entry: the key is the
    id of the entry and the profile is the one its constructor returns. *)
Definition stored (e : pyval) (kv : atom * ServerConfig.t) : Prop :=
  ServerConfig.from_kwargs e = inr (snd kv)
  /\ ServerConfig.id (snd kv) = VAtom (fst kv)
  /\ fst kv = AStr (entry_id e)
  /\ Str.truthy (entry_id e) = true.

(** The user name and password an [Authorization] header carries under the
    Basic scheme, as the program decodes it. *)
Definition basic_credentials (auth_header : string) : option (string * string) :=
  if Str.startswith auth_header "Basic " then
    match Codec.b64decode (Str.remove "Basic " auth_header) with
    | Some raw =>
        match Codec.decode_utf8 raw with
        | Some decoded => Str.split_once colon decoded
        | None => None
        end
    | None => None
    end
  else None.

(** The session is not marked authenticated. *)
Definition unauthenticated (request : Request) : Prop :=
  Py.atom_truthy (SessionAuth.is_authenticated request) = false.

(** ** What an Accept header prefers *)

(** The response to a request that fails both channels is described as
    depending on whether the Accept header "prefers HTML".  This module
    states that notion from the words of the description and the grammar
    of the header, to be compared with the test the program makes; the
    source has none of it.  An Accept header is a list of media ranges
    separated by commas; a range may carry parameters after semicolons,
    among them a weight [q] between 0 and 1 (1 when absent, 0 for "not
    acceptable"); media types are compared without regard to case. *)

Module Accept.

Definition is_blank (c : ascii) : bool :=
  Ascii.eqb c " " || Ascii.eqb c "009".

Fixpoint strip_left (s : string) : string :=
  match s with
  | EmptyString => EmptyString
  | String c r => if is_blank c then strip_left r else s
  end.

Fixpoint strip_right (s : string) : string :=
  match s with
  | EmptyString => EmptyString
  | String c r =>
      match strip_right r with
      | EmptyString => if is_blank c then EmptyString else String c EmptyString
      | r' => String c r'
      end
  end.

Definition strip (s : string) : string := strip_right (strip_left s).

(** The parts of [s] between the occurrences of [sep]. *)
Fixpoint split (sep : ascii) (s : string) : list string :=
  match s with
  | EmptyString => [EmptyString]
  | String c r =>
      if Ascii.eqb c sep then EmptyString :: split sep r
      else match split sep r with
           | part :: parts => String c part :: parts
           | [] => [String c EmptyString]
           end
  end.

Definition digit (c : ascii) : option N :=
  let n := N_of_ascii c in
  if (48 <=? n)%N && (n <=? 57)%N then Some (n - 48)%N else None.

(** The digits after the point, in thousandths: at most three of them,
    the first one counting [unit]. *)
Fixpoint decimals (unit : N) (s : string) : option N :=
  match s with
  | EmptyString => Some 0%N
  | String c r =>
      match digit c, decimals (unit / 10) r with
      | Some d, Some n => if (unit =? 0)%N then None else Some (d * unit + n)%N
      | _, _ => None
      end
  end.

(** The weight a text denotes, in thousandths: [0], [1], or one of them
    followed by a point and at most three digits, and at most 1. *)
Definition qvalue (s : string) : option N :=
  match s with
  | EmptyString => None
  | String c r =>
      match digit c with
      | None => None
      | Some d =>
          match r with
          | EmptyString => if (d <=? 1)%N then Some (d * 1000)%N else None
          | String point fraction =>
              if Ascii.eqb point "." then
                match decimals 100 fraction with
                | Some n =>
                    if (d * 1000 + n <=? 1000)%N then Some (d * 1000 + n)%N else None
                | None => None
                end
              else None
          end
      end
  end.

(** The weight the parameters of a media range give it: that of the
    first parameter named [q], and 1 when there is none or it is not a
    weight. *)
Fixpoint weight (params : list string) : N :=
  match params with
  | [] => 1000%N
  | param :: rest =>
      match Str.split_once "=" param with
      | Some (name, value) =>
          if String.eqb (Str.lower (strip name)) "q" then
            match qvalue (strip value) with
            | Some w => w
            | None => 1000%N
            end
          else weight rest
      | None => weight rest
      end
  end.

(** A member of the list: its media range in lower case, and its weight. *)
Definition media_range (member : string) : string * N :=
  match split ";" member with
  | range :: params => (Str.lower (strip range), weight params)
  | [] => (EmptyString, 0%N)
  end.

Definition media_ranges (header : string) : list (string * N) :=
  map media_range (split "," header).

(** The highest weight among the members that satisfy [select]. *)
Definition highest (select : string -> bool) (ranges : list (string * N)) : N :=
  fold_right (fun r w => if select (fst r) then N.max (snd r) w else w) 0%N ranges.

Definition is_html (range : string) : bool := String.eqb range "text/html".

(** The header prefers HTML: it lists [text/html] with a weight that is
    not zero, and gives no other media range a higher weight. *)
Definition prefers_html (header : string) : bool :=
  let ranges := media_ranges header in
  (0 <? highest is_html ranges)%N
  && (highest (fun range => negb (is_html range)) ranges <=? highest is_html ranges)%N.

End Accept.

(** ** Sample inputs *)

Module Sample.

Definition entry_text (id name : string) : string :=
  "{" +:+ JsonLite.q "id" +:+ ": " +:+ JsonLite.q id +:+ ", "
  +:+ JsonLite.q "name" +:+ ": " +:+ JsonLite.q name +:+ ", "
  +:+ JsonLite.q "url" +:+ ": " +:+ JsonLite.q "wss://lk.example.org" +:+ ", "
  +:+ JsonLite.q "api_key" +:+ ": " +:+ JsonLite.q "key" +:+ ", "
  +:+ JsonLite.q "api_secret" +:+ ": " +:+ JsonLite.q "secret" +:+ "}".

Definition entry (id name : string) : pyval :=
  VDict [("id", VAtom (AStr id)); ("name", VAtom (AStr name));
         ("url", VAtom (AStr "wss://lk.example.org"));
         ("api_key", VAtom (AStr "key")); ("api_secret", VAtom (AStr "secret"))].

(** Two entries with different ids. *)
Definition two_servers : string :=
  "[" +:+ entry_text "eu" "Europe" +:+ ", " +:+ entry_text "us" "America" +:+ "]".

(** Two entries with the same id. *)
Definition same_id_twice : string :=
  "[" +:+ entry_text "eu" "Europe" +:+ ", " +:+ entry_text "eu" "Backup" +:+ "]".

Definition primary_vars : list (string * string) :=
  [("LIVEKIT_URL", "wss://lk.example.org"); ("LIVEKIT_API_KEY", "key");
   ("LIVEKIT_API_SECRET", "secret")].

Definition group_vars (n : nat) : list (string * string) :=
  [(url_var n, "wss://lk.example.org"); (key_var n, "key"); (secret_var n, "secret")].

(** Primary variables and the numbered group 1. *)
Definition primary_and_numbered : gmap string string :=
  list_to_map (primary_vars ++ group_vars 1).

(** The same, with a [LIVEKIT_SERVERS] list as well. *)
Definition everything : gmap string string :=
  <["LIVEKIT_SERVERS" := two_servers]> primary_and_numbered.

(** Groups 1 to 3, nothing at 4, a group 5. *)
Definition three_groups : gmap string string :=
  list_to_map (group_vars 1 ++ group_vars 2 ++ group_vars 3 ++ group_vars 5).

(** Groups 1 to 3 with an empty [LIVEKIT_NAME_2]. *)
Definition three_groups_empty_name : gmap string string :=
  <["LIVEKIT_NAME_2" := EmptyString]> three_groups.

(** Only [LIVEKIT_SERVERS] is set. *)
Definition json_only (text : string) : gmap string string :=
  {[ "LIVEKIT_SERVERS" := text ]}.

(** [admin:changeme], the default credentials. *)
Definition good_header : string := "Basic YWRtaW46Y2hhbmdlbWU=".

(** [admin:wrong]. *)
Definition bad_header : string := "Basic YWRtaW46d3Jvbmc=".

Definition basic_request (auth_header : string) : Request :=
  mkRequest [("authorization", auth_header)] ∅.

Definition browser_request : Request :=
  mkRequest [("accept", "text/html,application/xhtml+xml")] ∅.

Definition api_request : Request :=
  mkRequest [("accept", "application/json")] ∅.

(** A client that asks for JSON and takes HTML as a last resort. *)
Definition json_first_request : Request :=
  mkRequest [("accept", "application/json, text/html;q=0.1")] ∅.

(** A client that asks for HTML, with the media type in capitals. *)
Definition capitals_request : Request :=
  mkRequest [("accept", "TEXT/HTML")] ∅.

(** A registry with the single server [eu]. *)
Definition registry : ServerConfigManager.t :=
  ServerConfigManager.mk
    [(AStr "eu",
      ServerConfig.mk (AStr "eu") (AStr "Europe") (AStr "wss://lk.example.org")
        (AStr "key") (AStr "secret") (ABool false) ANone)]
    (AStr "eu").

End Sample.

(** ** app/services/server_config.py, the module-level functions *)

(** [get_server_config_manager]: the global [_server_config_manager] is
    passed in and returned; it is assigned only when the constructor
    returns. *)
Definition get_server_config_manager (json_loads : string -> option pyval)
    (env : gmap string string) (_server_config_manager : option ServerConfigManager.t)
    : option ((exn + ServerConfigManager.t) * option ServerConfigManager.t) :=
  match _server_config_manager with
  | Some manager => Some (inr manager, _server_config_manager)
  | None =>
      match ServerConfigManager.__init__ json_loads env with
      | None => None
      | Some (inl e) => Some (inl e, None)
      | Some (inr manager) => Some (inr manager, Some manager)
      end
  end.

(** [get_server_config(server_id)] on a registry; [server_id] is an
    [Optional[str]]. *)
Definition get_server_config (manager : ServerConfigManager.t)
    (server_id : option string) : exn + ServerConfig.t :=
  if ServerConfigManager.set server_id then
    let id := default EmptyString server_id in
    match ServerConfigManager.get_server manager (AStr id) with
    | Some config => inr config
    | None => inl (ValueError ("Server configuration not found: " +:+ id))
    end
  else
    match ServerConfigManager.get_default_server manager with
    | Some config => inr config
    | None => inl (ValueError "No default server configuration available")
    end.

(** ** Invariants of the registry *)

(** The keys of a dict are pairwise different. *)
Inductive distinct_keys {V} : Py.dict V -> Prop :=
| distinct_keys_nil : distinct_keys []
| distinct_keys_cons (k : atom) (v : V) (d : Py.dict V) :
    fresh d k -> distinct_keys d -> distinct_keys ((k, v) :: d).

(** A stored profile: the key is truthy and equal to the id of the
    profile, and the profile passes its validation. *)
Definition entry_ok (kv : atom * ServerConfig.t) : Prop :=
  Py.atom_truthy (fst kv) = true
  /\ (exists a, Py.as_key (ServerConfig.id (snd kv)) = Some a
                /\ Py.atom_eqb (fst kv) a = true)
  /\ ServerConfig.__post_init__ (snd kv) = inr tt.

(** The default id is unset in an empty registry and names a stored
    profile otherwise. *)
Definition default_ok (m : ServerConfigManager.t) : Prop :=
  (ServerConfigManager._servers m = [] /\ ServerConfigManager._default_server_id m = ANone)
  \/ (Py.atom_truthy (ServerConfigManager._default_server_id m) = true
      /\ is_Some (Py.dict_get (ServerConfigManager._servers m)
                    (ServerConfigManager._default_server_id m))).

Definition registry_ok (m : ServerConfigManager.t) : Prop :=
  Forall entry_ok (ServerConfigManager._servers m)
  /\ distinct_keys (ServerConfigManager._servers m)
  /\ default_ok m.

(** The scalar an atom is compared and hashed as: a boolean is its
    integer. *)
Definition atom_norm (a : atom) : atom :=
  match a with
  | ABool b => AInt (Z.b2z b)
  | _ => a
  end.



(** ** Route handlers *)

(** [s.replace(old, new)] for a non-empty [old]: the occurrences of
    [old], taken from the left without overlap, become [new]. *)
Fixpoint replace_from (old new : string) (skip : nat) (s : string) : string :=
  match s with
  | EmptyString => EmptyString
  | String c r =>
      match skip with
      | S k => replace_from old new k r
      | O =>
          if String.prefix old s
          then new +:+ replace_from old new (Nat.pred (String.length old)) r
          else String c (replace_from old new 0 r)
      end
  end.

Definition replace (old new s : string) : string := replace_from old new 0 s.

(** What a handler returns: a redirect, or a rendered template with the
    entries of its context that the handler decides. *)
Inductive Response : Type :=
| RedirectResponse (url : string) (status_code : Z)
| TemplateResponse (name : string) (error : option string) (csrf_token : string)
    (servers : option (list ServerConfig.t)) (status_code : Z).

Definition response_status (r : Response) : Z :=
  match r with
  | RedirectResponse _ status_code => status_code
  | TemplateResponse _ _ _ _ status_code => status_code
  end.

(** [set_selected_server_id] on any value: the annotation [str] of
    [server_id] is not enforced, and the server selection page passes the
    id of a profile.  Looking up an unhashable value raises
    [TypeError]. *)
Definition set_selected_server_id_value (manager : ServerConfigManager.t)
    (request : Request) (server_id : pyval) : exn + (bool * gmap string atom) :=
  match Py.as_key server_id with
  | None => inl TypeError
  | Some a =>
      match ServerConfigManager.get_server manager a with
      | None => inr (false, session request)
      | Some _ =>
          inr (true, <[SessionManager.SESSION_SERVER_KEY := a]> (session request))
      end
  end.

Section Routes.

(** [validate_csrf_token] and [get_csrf_token], from
    [app/security/csrf.py] (not among the sources).  [get_csrf_token]
    may write the session: it returns the token and the session it
    leaves. *)
Variable csrf_validate : string -> bool.
Variable get_csrf_token : Request -> string * gmap string atom.

(** app/routes/auth.py, [login_page]. *)
Definition login_page (request : Request) : Response * gmap string atom :=
  if Py.atom_truthy (SessionAuth.is_authenticated request) then
    (RedirectResponse "/" 303, session request)
  else
    let '(token, session') := get_csrf_token request in
    (TemplateResponse "login.html.j2" None token None 200, session').

(** app/routes/auth.py, [login_submit].  [None] when
    [verify_credentials] raises, which the handler does not catch. *)
Definition login_submit (env : gmap string string) (request : Request)
    (username password csrf_token : string)
    : option (Response * gmap string atom) :=
  if negb (csrf_validate csrf_token) then
    let '(token, session') := get_csrf_token request in
    Some (TemplateResponse "login.html.j2"
            (Some "Invalid security token. Please try again.") token None 403,
          session')
  else
    match SessionAuth.verify_credentials env username password with
    | None => None
    | Some true =>
        let '(_, session') := SessionAuth.login_user request username in
        Some (RedirectResponse "/" 303, session')
    | Some false =>
        let '(token, session') := get_csrf_token request in
        Some (TemplateResponse "login.html.j2"
                (Some "Invalid username or password.") token None 401,
              session')
    end.

(** app/routes/server_selection.py, [server_selection_page], after its
    dependency [requires_admin_hybrid] has accepted the request. *)
Definition server_selection_page (manager : ServerConfigManager.t)
    (request : Request) : exn + (Response * gmap string atom) :=
  let servers := ServerConfigManager.list_servers manager in
  match servers with
  | [server] =>
      match set_selected_server_id_value manager request (ServerConfig.id server) with
      | inl e => inl e
      | inr (_, session') => inr (RedirectResponse "/" 303, session')
      end
  | _ =>
      let '(token, session') := get_csrf_token request in
      inr (TemplateResponse "server_select.html.j2" None token (Some servers) 200,
           session')
  end.

(** app/routes/server_selection.py, [handle_server_selection], after its
    dependency has accepted the request. *)
Definition handle_server_selection (manager : ServerConfigManager.t)
    (request : Request) (server_id csrf_token : string)
    : Response * gmap string atom :=
  if negb (csrf_validate csrf_token) then
    let servers := ServerConfigManager.list_servers manager in
    let '(token, session') := get_csrf_token request in
    (TemplateResponse "server_select.html.j2"
       (Some "Invalid security token. Please try again.") token (Some servers) 403,
     session')
  else
    match ServerConfigManager.get_server manager (AStr server_id) with
    | None =>
        let servers := ServerConfigManager.list_servers manager in
        let '(token, session') := get_csrf_token request in
        (TemplateResponse "server_select.html.j2"
           (Some "Invalid server selection. Please choose a valid server.")
           token (Some servers) 400,
         session')
    | Some _ =>
        let '(success, session1) :=
          SessionManager.set_selected_server_id manager request server_id in
        if success then (RedirectResponse "/" 303, session1)
        else
          let servers := ServerConfigManager.list_servers manager in
          let '(token, session') := get_csrf_token (with_session request session1) in
          (TemplateResponse "server_select.html.j2"
             (Some "Failed to save server selection. Please try again.")
             token (Some servers) 500,
           session')
    end.

(** The client type and [create_livekit_client], from
    [app/services/livekit.py] (not among the sources). *)
Variable LiveKitClient : Type.
Variable create_livekit_client : atom -> exn + LiveKitClient.

(** app/utils/route_helpers.py, [get_livekit_client_for_request].  A
    [RedirectResponse] is not an exception, so raising it raises
    [TypeError]. *)
Definition get_livekit_client_for_request (manager : ServerConfigManager.t)
    (request : Request) : exn + LiveKitClient :=
  let current_server_id := SessionManager.get_current_server_id manager request in
  if negb (Py.atom_truthy current_server_id) then inl TypeError
  else create_livekit_client current_server_id.

End Routes.

(** app/routes/egress.py, [start_egress]: the file name passed to the
    client.  [now] is [datetime.now().strftime("%Y%m%d_%H%M%S")]. *)
Definition egress_filename (output_filename room_name now : string) : string :=
  let filename := replace "{room}" room_name output_filename in
  replace "{time}" now filename.

(** ** The encoder of a Basic header *)

(** The base64 digit of a value below 64. *)
Definition b64_digit (v : N) : ascii :=
  if (v <? 26)%N then ascii_of_N (v + 65)
  else if (v <? 52)%N then ascii_of_N (v + 71)
  else if (v <? 62)%N then ascii_of_N (v - 4)
  else if (v =? 62)%N then ascii_of_N 43
  else ascii_of_N 47.

(** [base64.b64encode], which a client applies to [username:password]:
    three bytes give four digits, and a last group of one or two bytes is
    padded with [=]. *)
Fixpoint b64encode (b : string) : string :=
  match b with
  | EmptyString => EmptyString
  | String x EmptyString =>
      let n := N_of_ascii x in
      String (b64_digit (N.shiftr n 2))
        (String (b64_digit (N.shiftl (N.land n 3) 4))
           (String Codec.BASE64_PAD (String Codec.BASE64_PAD EmptyString)))
  | String x (String y EmptyString) =>
      let n := N_of_ascii x in
      let m := N_of_ascii y in
      String (b64_digit (N.shiftr n 2))
        (String (b64_digit (N.lor (N.shiftl (N.land n 3) 4) (N.shiftr m 4)))
           (String (b64_digit (N.shiftl (N.land m 15) 2))
              (String Codec.BASE64_PAD EmptyString)))
  | String x (String y (String z r)) =>
      let n := N_of_ascii x in
      let m := N_of_ascii y in
      let l := N_of_ascii z in
      String (b64_digit (N.shiftr n 2))
        (String (b64_digit (N.lor (N.shiftl (N.land n 3) 4) (N.shiftr m 4)))
           (String (b64_digit (N.lor (N.shiftl (N.land m 15) 2) (N.shiftr l 6)))
              (String (b64_digit (N.land l 63)) (b64encode r))))
  end.

(** The header a client sends for a user name and a password. *)
Definition basic_header (username password : string) : string :=
  "Basic " +:+ b64encode (username +:+ ":" +:+ password).

(** The numbers below [n]. *)
Definition below (n : nat) : list N := map N.of_nat (seq 0 n).


(** A digit decodes to its value, is not the pad, is ASCII and is not a
    space. *)
Definition digit_ok (v : N) : bool :=
  match Codec.table_a2b_base64 (b64_digit v) with
  | Some w => (w =? v)%N
  | None => false
  end
  && negb (Ascii.eqb (b64_digit v) Codec.BASE64_PAD)
  && (N_of_ascii (b64_digit v) <? 128)%N
  && negb (N_of_ascii (b64_digit v) =? 32)%N.


(** The four digits of three bytes and the bytes they decode to. *)
Definition quad_ok (n m : N) : bool :=
  let v0 := N.shiftr n 2 in
  let v1 := N.lor (N.shiftl (N.land n 3) 4) (N.shiftr m 4) in
  let v2hi := N.shiftl (N.land m 15) 2 in
  (v0 <? 64)%N && (v1 <? 64)%N && (v2hi <? 64)%N
  && (N.shiftl (N.land n 3) 4 <? 64)%N
  && (N.lor (N.shiftl v0 2) (N.shiftr v1 4) =? n)%N
  && (N.lor (N.shiftl v0 2) (N.shiftr (N.shiftl (N.land n 3) 4) 4) =? n)%N
  && (N.land v1 15 =? N.shiftr m 4)%N
  (* the third digit joins the low half of [n], here in the role of the
     second byte, with the top of [m], in the role of the third *)
  && (let w2 := N.lor (N.shiftl (N.land n 15) 2) (N.shiftr m 6) in
      (w2 <? 64)%N
      && (N.lor (N.shiftl (N.shiftr n 4) 4) (N.shiftr w2 2) =? n)%N
      && (N.land w2 3 =? N.shiftr m 6)%N
      && (N.lor (N.shiftl (N.shiftr m 6) 6) (N.land m 63) =? m)%N
      && (N.land m 63 <? 64)%N
      && (N.lor (N.shiftl (N.shiftr n 4) 4) (N.shiftr (N.shiftl (N.land n 15) 2) 2) =? n)%N).


(** ** The decoder and the exceptions the loader does not catch *)






(** ** Sample inputs for the further properties *)

Module Fixture.

(** The registry of [Sample.primary_and_numbered]. *)
Definition merged_registry : ServerConfigManager.t :=
  ServerConfigManager.mk
    [(AStr "primary", primary_profile Sample.primary_and_numbered);
     (AStr "server_1", numbered_profile Sample.primary_and_numbered 1)]
    (AStr "primary").

(** A token check and a token source that keeps the token in the
    session. *)
Definition csrf_validate (token : string) : bool := String.eqb token "token".

Definition get_csrf_token (request : Request) : string * gmap string atom :=
  ("token", <["csrf_token" := AStr "token"]> (session request)).

(** A client that is the id it was made for. *)
Definition create_livekit_client (server_id : atom) : exn + atom := inr server_id.

(** A request with a session that selected [server_id]. *)
Definition selected (server_id : string) : Request :=
  mkRequest [] {[ "selected_server_id" := AStr server_id ]}.

(** A list whose second entry lacks its URL. *)
Definition second_entry_bad : string :=
  "[" +:+ Sample.entry_text "eu" "Europe" +:+ ", {"
  +:+ JsonLite.q "id" +:+ ": " +:+ JsonLite.q "us" +:+ "}]".

(** Group 1 with an empty name. *)
Definition empty_first_name : gmap string string :=
  <["LIVEKIT_NAME_1" := EmptyString]> (list_to_map (Sample.group_vars 1)).


End Fixture.

(** * Properties *)

(** ** Dictionaries *)

Module DictFacts.
Import Py.

Lemma fresh_nil {V} (k : atom) : fresh (@nil (atom * V)) k.
Proof. constructor. Qed.

Lemma fresh_snoc {V} (d : dict V) (k k' : atom) (v : V) :
  fresh d k -> atom_eqb k' k = false -> fresh (d ++ [(k', v)])%list k.
Proof.
  intros Hd Hk. apply Forall_app. split; [exact Hd|].
  constructor; [exact Hk | constructor].
Qed.

Lemma dict_set_fresh {V} (d : dict V) (k : atom) (v : V) :
  fresh d k -> dict_set d k v = (d ++ [(k, v)])%list.
Proof.
  induction 1 as [|[k' v'] d Hk _ IH]; simpl; [reflexivity|].
  simpl in Hk. rewrite Hk, IH. reflexivity.
Qed.

Lemma dict_get_fresh {V} (d : dict V) (k : atom) :
  fresh d k -> dict_get d k = None.
Proof.
  induction 1 as [|[k' v'] d Hk _ IH]; simpl; [reflexivity|].
  simpl in Hk. rewrite Hk. exact IH.
Qed.

Lemma atom_eqb_str (a b : string) :
  atom_eqb (AStr a) (AStr b) = true <-> a = b.
Proof. simpl. apply String.eqb_eq. Qed.

Lemma atom_eqb_str_ne (a b : string) :
  a <> b -> atom_eqb (AStr a) (AStr b) = false.
Proof. intros H. simpl. apply String.eqb_neq. exact H. Qed.

Lemma atom_eqb_refl (a : atom) : atom_eqb a a = true.
Proof.
  destruct a as [|b|n|s]; simpl.
  - reflexivity.
  - destruct b; reflexivity.
  - apply Z.eqb_refl.
  - apply String.eqb_refl.
Qed.

End DictFacts.

(** ** The numbered variables *)

Section NumberedVariables.

Lemma url_var_inj : Inj (=) (=) url_var.
Proof.
  intros i j H. unfold url_var in H.
  apply String.app_inj in H. apply (inj pretty) in H. exact H.
Qed.

Lemma server_id_inj : Inj (=) (=) server_id.
Proof.
  intros i j H. unfold server_id in H.
  apply String.app_inj in H. apply (inj pretty) in H. exact H.
Qed.

Lemma server_id_not_primary (n : nat) : server_id n <> "primary".
Proof. unfold server_id. simpl. discriminate. Qed.

(** At most [size env] of the variables [LIVEKIT_URL_i] .. are present. *)
Lemma url_vars_bounded (env : gmap string string) (i n : nat) :
  (forall j, i <= j < i + n -> is_Some (env !! url_var j)) -> n <= size env.
Proof.
  intros H.
  assert (Hsub : map url_var (seq i n) ⊆+ elements (dom env)).
  { apply NoDup_submseteq.
    - apply (NoDup_fmap_2 url_var). apply NoDup_seq.
    - intros x Hx. apply list_elem_of_fmap in Hx as (j & -> & Hj).
      apply elem_of_seq in Hj. apply elem_of_elements, elem_of_dom.
      apply H. lia. }
  apply submseteq_length in Hsub.
  rewrite length_map, length_seq in Hsub.
  pose proof (size_dom env) as Hs. unfold size at 1, set_size in Hs. simpl in Hs.
  lia.
Qed.

End NumberedVariables.

(** ** The loader *)

Module LoaderFacts.
Import Py ServerConfigManager DictFacts.

Lemma set_truthy (o : option string) :
  set o = true -> Str.truthy (default EmptyString o) = true.
Proof. destruct o as [s|]; simpl; [tauto | discriminate]. Qed.

Lemma set_is_Some (o : option string) : set o = true -> is_Some o.
Proof. destruct o as [s|]; simpl; [eauto | discriminate]. Qed.

Lemma numbered_profile_valid (env : gmap string string) (n : nat) :
  group_set env n = true -> name_usable env n = true ->
  ServerConfig.__post_init__ (numbered_profile env n) = inr tt.
Proof.
  unfold group_set, name_usable. intros Hg Hn.
  apply andb_prop in Hg as [Hg Hs]. apply andb_prop in Hg as [Hu Hk].
  apply set_truthy in Hu, Hk, Hs.
  unfold ServerConfig.__post_init__, numbered_profile. cbn [ServerConfig.id ServerConfig.name ServerConfig.url ServerConfig.api_key ServerConfig.api_secret truthy atom_truthy].
  rewrite Hu, Hk, Hs.
  destruct (env !! name_var n) as [s|]; cbn [from_option id]; [rewrite Hn|];
    reflexivity.
Qed.

Lemma load_numbered_stop (fuel : nat) (env : gmap string string) (n : nat) (self : t) :
  group_set env n = false ->
  load_numbered (S fuel) env n self = Some (inr self).
Proof.
  intros Hg. cbn [load_numbered]. fold (url_var n) (key_var n) (secret_var n).
  fold (group_set env n). rewrite Hg. reflexivity.
Qed.

Lemma load_numbered_step (fuel : nat) (env : gmap string string) (n : nat) (self : t) :
  group_set env n = true -> name_usable env n = true ->
  load_numbered (S fuel) env n self
  = load_numbered fuel env (S n) (store_numbered env n self).
Proof.
  intros Hg Hn. cbn [load_numbered].
  fold (url_var n) (key_var n) (secret_var n) (name_var n) (sip_var n) (server_id n).
  fold (group_set env n). rewrite Hg. cbn [negb].
  unfold ServerConfig.__init__. fold (numbered_profile env n).
  rewrite (numbered_profile_valid env n Hg Hn). reflexivity.
Qed.

Lemma load_numbered_empty_name (fuel : nat) (env : gmap string string) (n : nat) (self : t) :
  group_set env n = true -> name_usable env n = false ->
  load_numbered (S fuel) env n self
  = Some (inl (ValueError "Server name is required")).
Proof.
  intros Hg Hn. cbn [load_numbered].
  fold (url_var n) (key_var n) (secret_var n) (name_var n) (sip_var n) (server_id n).
  fold (group_set env n). rewrite Hg. cbn [negb].
  unfold ServerConfig.__init__. fold (numbered_profile env n).
  unfold ServerConfig.__post_init__, numbered_profile.
  cbn [ServerConfig.id ServerConfig.name truthy atom_truthy].
  unfold name_usable in Hn. destruct (env !! name_var n) as [s|]; [|discriminate].
  cbn [from_option id]. rewrite Hn. reflexivity.
Qed.


Lemma server_id_fresh_snoc (d : dict ServerConfig.t) (i j : nat) (v : ServerConfig.t) :
  fresh d (AStr (server_id j)) -> i <> j ->
  fresh (d ++ [(AStr (server_id i), v)])%list (AStr (server_id j)).
Proof.
  intros Hd Hij. apply fresh_snoc; [exact Hd|].
  apply atom_eqb_str_ne. intros H. apply Hij. exact (server_id_inj _ _ H).
Qed.

(** The scan stores the groups before the first gap, in order, and stops
    there, whatever lies beyond. *)
Lemma load_numbered_run (env : gmap string string) (k : nat) :
  forall (fuel i : nat) (self : t),
    k < fuel ->
    (forall j, i <= j < i + k -> group_set env j = true /\ name_usable env j = true) ->
    group_set env (i + k) = false ->
    (forall j, i <= j -> fresh (_servers self) (AStr (server_id j))) ->
    load_numbered fuel env i self
    = Some (inr (mk (_servers self ++ numbered_entries env i k)%list
                    (match k with
                     | O => _default_server_id self
                     | S _ =>
                         if negb (atom_truthy (_default_server_id self))
                         then AStr (server_id i)
                         else _default_server_id self
                     end))).
Proof.
  induction k as [|k IH]; intros fuel i self Hfuel Hgroups Hgap Hfresh.
  - destruct fuel as [|fuel]; [lia|].
    rewrite Nat.add_0_r in Hgap. rewrite (load_numbered_stop _ _ _ _ Hgap).
    unfold numbered_entries. simpl. rewrite app_nil_r. destruct self; reflexivity.
  - destruct fuel as [|fuel]; [lia|].
    destruct (Hgroups i ltac:(lia)) as [Hg Hn].
    rewrite (load_numbered_step _ _ _ _ Hg Hn).
    rewrite (IH fuel (S i) (store_numbered env i self)).
    + unfold store_numbered. cbn [_servers _default_server_id].
      rewrite (dict_set_fresh _ _ _ (Hfresh i ltac:(lia))).
      rewrite <- app_assoc. f_equal. f_equal. f_equal.
      destruct (atom_truthy (_default_server_id self)) eqn:Hd; cbn [negb].
      * destruct k; [reflexivity | rewrite Hd; reflexivity].
      * destruct k; reflexivity.
    + lia.
    + intros j Hj. apply Hgroups. lia.
    + replace (S i + k) with (i + S k) by lia. exact Hgap.
    + intros j Hj. unfold store_numbered. cbn [_servers].
      rewrite (dict_set_fresh _ _ _ (Hfresh i ltac:(lia))).
      apply server_id_fresh_snoc; [apply Hfresh; lia | lia].
Qed.

(** A scan that uses up its bound has found a URL variable at every
    index it visited. *)
Lemma load_numbered_exhausted (env : gmap string string) (fuel : nat) :
  forall (i : nat) (self : t),
    load_numbered fuel env i self = None ->
    forall j, i <= j < i + fuel -> is_Some (env !! url_var j).
Proof.
  induction fuel as [|fuel IH]; intros i self Hnone j Hj; [lia|].
  destruct (group_set env i) eqn:Hg.
  - destruct (name_usable env i) eqn:Hn.
    + rewrite (load_numbered_step _ _ _ _ Hg Hn) in Hnone.
      destruct (decide (j = i)) as [->|Hne].
      * unfold group_set in Hg. apply andb_prop in Hg as [Hg _].
        apply andb_prop in Hg as [Hu _]. exact (set_is_Some _ Hu).
      * apply (IH _ _ Hnone). lia.
    + rewrite (load_numbered_empty_name _ _ _ _ Hg Hn) in Hnone. discriminate.
  - rewrite (load_numbered_stop _ _ _ _ Hg) in Hnone. discriminate.
Qed.

Lemma load_numbered_total (env : gmap string string) (i : nat) (self : t) :
  is_Some (load_numbered (S (size env)) env i self).
Proof.
  destruct (load_numbered (S (size env)) env i self) as [r|] eqn:Hr; [eauto|].
  pose proof (url_vars_bounded env i (S (size env))
                (load_numbered_exhausted env _ i self Hr)).
  lia.
Qed.

Lemma load_primary_set (env : gmap string string) (self : t) :
  primary_set env = true ->
  load_primary env self
  = inr (mk (dict_set (_servers self) (AStr "primary") (primary_profile env))
            (AStr "primary")).
Proof.
  intros Hp. unfold load_primary. fold (primary_set env). rewrite Hp.
  unfold primary_set in Hp.
  apply andb_prop in Hp as [Hp Hs]. apply andb_prop in Hp as [Hu Hk].
  apply set_truthy in Hu, Hk, Hs.
  unfold ServerConfig.__init__, ServerConfig.__post_init__.
  cbn [ServerConfig.id ServerConfig.name ServerConfig.url ServerConfig.api_key
       ServerConfig.api_secret truthy atom_truthy].
  rewrite Hu, Hk, Hs. reflexivity.
Qed.

Lemma load_primary_unset (env : gmap string string) (self : t) :
  primary_set env = false -> load_primary env self = inr self.
Proof.
  intros Hp. unfold load_primary. fold (primary_set env). rewrite Hp. reflexivity.
Qed.

Lemma primary_fresh (n : nat) (v : ServerConfig.t) :
  fresh [(AStr "primary", v)] (AStr (server_id n)).
Proof.
  constructor; [|constructor]. apply atom_eqb_str_ne.
  intros H. exact (server_id_not_primary n (eq_sym H)).
Qed.

Section WithDecoder.

Variable json_loads : string -> option pyval.

Lemma load_json_unset (env : gmap string string) (self : t) :
  set (env !! "LIVEKIT_SERVERS") = false ->
  load_json json_loads env self = (self, false).
Proof.
  intros H. unfold load_json.
  destruct (env !! "LIVEKIT_SERVERS") as [text|]; [|reflexivity].
  simpl in H. rewrite H. reflexivity.
Qed.

(** The scan always ends: construction returns or raises. *)
Lemma _load_configurations_total (env : gmap string string) (self : t) :
  is_Some (_load_configurations json_loads env self).
Proof.
  unfold _load_configurations.
  destruct (load_json json_loads env self) as [self1 [|]]; [eauto|].
  destruct (load_primary env self1) as [e|self2]; [eauto|].
  destruct (load_numbered_total env 1 self2) as [r Hr]. rewrite Hr.
  destruct r as [e|self3]; [eauto|].
  destruct (_servers self3); eauto.
Qed.

(** Without [LIVEKIT_SERVERS], the registry is the primary profile, if
    its variables are set, followed by the numbered profiles up to the
    first gap. *)
Lemma init_from_variables (env : gmap string string) (k : nat) :
  set (env !! "LIVEKIT_SERVERS") = false ->
  (forall j, 1 <= j <= k -> group_set env j = true /\ name_usable env j = true) ->
  group_set env (S k) = false ->
  __init__ json_loads env
  = if primary_set env then
      Some (inr (mk ((AStr "primary", primary_profile env)
                       :: numbered_entries env 1 k)
                    (AStr "primary")))
    else
      match k with
      | O => Some (inl no_configuration)
      | S _ => Some (inr (mk (numbered_entries env 1 k) (AStr (server_id 1))))
      end.
Proof.
  intros Hjson Hgroups Hgap. unfold __init__, _load_configurations.
  rewrite (load_json_unset _ _ Hjson).
  assert (Hsize : k < S (size env)).
  { apply Nat.lt_succ_r. apply (url_vars_bounded env 1 k).
    intros j Hj. destruct (Hgroups j ltac:(lia)) as [Hg _].
    unfold group_set in Hg. apply andb_prop in Hg as [Hg _].
    apply andb_prop in Hg as [Hu _]. exact (set_is_Some _ Hu). }
  destruct (primary_set env) eqn:Hp.
  - rewrite (load_primary_set _ _ Hp). cbn [empty _servers dict_set].
    rewrite (load_numbered_run env k); cbn [_servers _default_server_id];
      [ | exact Hsize | intros j Hj; apply Hgroups; lia | exact Hgap
        | intros j _; apply primary_fresh ].
    cbn [app]. destruct k; reflexivity.
  - rewrite (load_primary_unset _ _ Hp).
    rewrite (load_numbered_run env k); cbn [empty _servers _default_server_id];
      [ | exact Hsize | intros j Hj; apply Hgroups; lia | exact Hgap
        | intros j _; apply fresh_nil ].
    cbn [app]. destruct k as [|k]; [reflexivity|].
    unfold numbered_entries. cbn [seq map]. reflexivity.
Qed.

End WithDecoder.

End LoaderFacts.

(** ** The JSON list *)

Module JsonFacts.
Import Py ServerConfigManager DictFacts.

Lemma nonempty_str_inv (o : option pyval) :
  nonempty_str o = true ->
  exists s, o = Some (VAtom (AStr s)) /\ Str.truthy s = true.
Proof.
  destruct o as [[[| | |s]| |]|]; simpl; try discriminate. eauto.
Qed.

(** A well-formed entry passes the constructor and its validation. *)
Lemma well_formed_stored (e : pyval) :
  well_formed_entry e = true -> exists kv, stored e kv.
Proof.
  destruct e as [a|l|m]; try discriminate. unfold well_formed_entry. intros H.
  apply andb_prop in H as [H _]. apply andb_prop in H as [H _].
  apply andb_prop in H as [H Hsecret]. apply andb_prop in H as [H Hkey].
  apply andb_prop in H as [H Hurl]. apply andb_prop in H as [H Hname].
  apply andb_prop in H as [H Hid].
  destruct (nonempty_str_inv _ Hid) as (i & Hi & Ti).
  destruct (nonempty_str_inv _ Hname) as (n & Hn & Tn).
  destruct (nonempty_str_inv _ Hurl) as (u & Hu & Tu).
  destruct (nonempty_str_inv _ Hkey) as (k & Hk & Tk).
  destruct (nonempty_str_inv _ Hsecret) as (s & Hs & Ts).
  eexists (AStr i, _). unfold stored, ServerConfig.from_kwargs, entry_id.
  rewrite H, Hi, Hn, Hu, Hk, Hs.
  unfold ServerConfig.__init__, ServerConfig.__post_init__.
  cbn [ServerConfig.id ServerConfig.name ServerConfig.url ServerConfig.api_key
       ServerConfig.api_secret truthy atom_truthy fst snd].
  rewrite Ti, Tn, Tu, Tk, Ts. cbn [negb]. repeat split; reflexivity || exact Ti.
Qed.

Lemma well_formed_all_stored (entries : list pyval) :
  Forall (fun e => well_formed_entry e = true) entries ->
  exists kvs, Forall2 stored entries kvs.
Proof.
  induction 1 as [|e entries He _ [kvs IH]].
  - exists []. constructor.
  - destruct (well_formed_stored e He) as [kv Hkv].
    exists (kv :: kvs). constructor; assumption.
Qed.

(** Entries that construct never stop the loop. *)
Lemma load_entries_completes (entries : list pyval) (kvs : list (atom * ServerConfig.t)) :
  Forall2 stored entries kvs ->
  forall self, snd (load_entries entries self) = None.
Proof.
  induction 1 as [|e kv entries kvs (Hk & Hid & _) _ IH]; intros self;
    [reflexivity|].
  cbn [load_entries]. rewrite Hk, Hid. cbn [as_key]. apply IH.
Qed.

(** Entries with pairwise different ids, none of them in the registry
    yet, are appended in order; the first becomes the default unless
    there is one. *)
Lemma load_entries_distinct (entries : list pyval) (kvs : list (atom * ServerConfig.t)) :
  Forall2 stored entries kvs ->
  NoDup (map entry_id entries) ->
  forall self,
    Forall (fun e => fresh (_servers self) (AStr (entry_id e))) entries ->
    load_entries entries self
    = (mk (_servers self ++ kvs)%list
          (match kvs with
           | [] => _default_server_id self
           | kv :: _ =>
               if negb (atom_truthy (_default_server_id self)) then fst kv
               else _default_server_id self
           end),
       None).
Proof.
  induction 1 as [|e kv entries kvs (Hk & Hid & Hkey & Hne) Hrest IH];
    intros Hnodup self Hfresh.
  - cbn [load_entries]. rewrite app_nil_r. destruct self; reflexivity.
  - destruct kv as [key cfg]. cbn [fst snd] in *. subst key.
    cbn [load_entries]. rewrite Hk, Hid. cbn [as_key].
    cbn [map] in Hnodup. apply NoDup_cons in Hnodup as [Hnotin Hnodup].
    apply Forall_cons in Hfresh as [Hfe Hfresh].
    rewrite (dict_set_fresh _ _ _ Hfe).
    rewrite IH; cbn [_servers _default_server_id].
    + rewrite <- app_assoc. cbn [app]. f_equal. f_equal.
      destruct (atom_truthy (_default_server_id self)) eqn:Hd; cbn [negb].
      * destruct kvs; [reflexivity | rewrite Hd; reflexivity].
      * cbn [atom_truthy]. rewrite Hne. destruct kvs; reflexivity.
    + exact Hnodup.
    + apply Forall_forall. intros e' He'.
      rewrite Forall_forall in Hfresh.
      apply fresh_snoc; [apply Hfresh; exact He'|].
      apply atom_eqb_str_ne. intros Heq. apply Hnotin.
      rewrite Heq. apply list_elem_of_fmap. eauto.
Qed.

Section WithDecoder.

Variable json_loads : string -> option pyval.

(** A list that loads ends construction at once: no other variable is
    read. *)
Lemma init_from_json (env : gmap string string) (text : string)
    (entries : list pyval) (kvs : list (atom * ServerConfig.t)) :
  env !! "LIVEKIT_SERVERS" = Some text ->
  Str.truthy text = true ->
  json_loads text = Some (VList entries) ->
  Forall2 stored entries kvs ->
  __init__ json_loads env = Some (inr (fst (load_entries entries empty))).
Proof.
  intros Henv Htext Hloads Hstored.
  unfold __init__, _load_configurations, load_json.
  rewrite Henv, Htext, Hloads. cbn [items].
  pose proof (load_entries_completes _ _ Hstored empty) as Hc.
  destruct (load_entries entries empty) as [self' o]. cbn [snd] in Hc.
  subst o. reflexivity.
Qed.

End WithDecoder.

End JsonFacts.

(** ** The registry after construction *)

Module RegistryFacts.
Import Py ServerConfigManager DictFacts LoaderFacts JsonFacts.

Lemma dict_set_keys {V} (d : dict V) (k : atom) (v : V) (a : atom) :
  a ∈ map fst (dict_set d k v) -> a ∈ map fst d \/ a = k.
Proof.
  induction d as [|[k' v'] d IH]; cbn [dict_set map fst].
  - intros H. apply list_elem_of_singleton in H. right. exact H.
  - destruct (atom_eqb k' k); cbn [map fst]; intros H.
    + left. exact H.
    + rewrite elem_of_cons in H. rewrite elem_of_cons. destruct H as [H|H]; [tauto|].
      destruct (IH H) as [H'|H']; tauto.
Qed.

(** Every key of the registry after the loop was there before or is the
    id of an entry. *)
Lemma load_entries_keys (entries : list pyval) (kvs : list (atom * ServerConfig.t)) :
  Forall2 stored entries kvs ->
  forall (self : t) (a : atom),
    a ∈ get_server_ids (fst (load_entries entries self)) ->
    a ∈ get_server_ids self \/ exists e, e ∈ entries /\ a = AStr (entry_id e).
Proof.
  unfold get_server_ids.
  induction 1 as [|e kv entries kvs (Hk & Hid & Hkey & _) _ IH]; intros self a;
    cbn [load_entries].
  - cbn [fst]. tauto.
  - destruct kv as [key cfg]. cbn [fst snd] in *. subst key.
    rewrite Hk, Hid. cbn [as_key]. intros Ha.
    destruct (IH _ _ Ha) as [Hin|(e' & He' & ->)].
    + cbn [_servers] in Hin. apply dict_set_keys in Hin as [Hin| ->].
      * left. exact Hin.
      * right. exists e. split; [apply elem_of_cons; tauto | reflexivity].
    + right. exists e'. split; [apply elem_of_cons; tauto | reflexivity].
Qed.

Lemma numbered_entries_ids (env : gmap string string) (i k : nat) :
  map fst (numbered_entries env i k) = map (fun j => AStr (server_id j)) (seq i k).
Proof. unfold numbered_entries. rewrite map_map. reflexivity. Qed.

End RegistryFacts.

Section RegistryClaims.
Import Py ServerConfigManager DictFacts LoaderFacts JsonFacts RegistryFacts.

Variable json_loads : string -> option pyval.

(** Construction always ends, by returning a registry or by raising. *)
Theorem init_total (env : gmap string string) :
  is_Some (ServerConfigManager.__init__ json_loads env).
Proof. apply _load_configurations_total. Qed.

(** C1, as amended.  The JSON list short-circuits and the two kinds of
    variables merge:
    - in every environment, whatever primary or numbered variables are
      also set, when [LIVEKIT_SERVERS] holds a well-formed list with at
      least one entry, construction returns the registry it returns when
      no other variable is set, and every id in it is the id of an entry;
    - in an environment whose primary variables are all set and whose
      numbered groups 1 to [k] are set (group [k + 1] being the first
      gap), when [LIVEKIT_SERVERS] is unset or empty, the registry holds
      the primary profile followed by the profiles [server_1], ...,
      [server_k], and the primary profile is the default. *)
Theorem json_list_short_circuits_and_variables_merge
    (env : gmap string string) (k : nat) :
  (forall (text : string) (entries : list pyval),
      env !! "LIVEKIT_SERVERS" = Some text ->
      Str.truthy text = true ->
      json_loads text = Some (VList entries) ->
      entries <> [] ->
      Forall (fun e => well_formed_entry e = true) entries ->
      exists m,
        ServerConfigManager.__init__ json_loads env = Some (inr m)
        /\ ServerConfigManager.__init__ json_loads {[ "LIVEKIT_SERVERS" := text ]}
           = Some (inr m)
        /\ forall a, a ∈ get_server_ids m ->
                     exists e, e ∈ entries /\ a = AStr (entry_id e))
  /\ (primary_set env = true ->
      (forall j, 1 <= j <= k -> group_set env j = true /\ name_usable env j = true) ->
      group_set env (S k) = false ->
      set (env !! "LIVEKIT_SERVERS") = false ->
      exists m,
        ServerConfigManager.__init__ json_loads env = Some (inr m)
        /\ get_server_ids m
           = AStr "primary" :: map (fun j => AStr (server_id j)) (seq 1 k)
        /\ _default_server_id m = AStr "primary"
        /\ get_default_server m = Some (primary_profile env)).
Proof.
  split.
  - intros text entries Henv Htext Hloads _ Hwf.
    destruct (well_formed_all_stored entries Hwf) as [kvs Hkvs].
    exists (fst (load_entries entries empty)). split; [|split].
    + exact (init_from_json json_loads env text entries kvs Henv Htext Hloads Hkvs).
    + apply (init_from_json json_loads _ text entries kvs);
        [apply lookup_singleton_eq | exact Htext | exact Hloads | exact Hkvs].
    + intros a Ha. destruct (load_entries_keys entries kvs Hkvs empty a Ha) as [H|H];
        [|exact H].
      cbn in H. apply elem_of_nil in H. destruct H.
  - intros Hp Hgroups Hgap Hjson.
    rewrite (init_from_variables json_loads env k Hjson Hgroups Hgap), Hp.
    eexists. split; [reflexivity|].
    unfold get_server_ids, get_default_server.
    cbn [_servers _default_server_id map fst atom_truthy Str.truthy dict_get].
    rewrite numbered_entries_ids. repeat split.
Qed.

(** C8, as amended.  When [LIVEKIT_SERVERS] holds a well-formed list of
    at least one entry whose ids are pairwise different, the registry
    lists as many profiles as the list has entries, and the default
    profile is the one built from the first entry. *)
Theorem json_list_with_distinct_ids_loaded
    (env : gmap string string) (text : string) (first : pyval) (rest : list pyval) :
  env !! "LIVEKIT_SERVERS" = Some text ->
  Str.truthy text = true ->
  json_loads text = Some (VList (first :: rest)) ->
  Forall (fun e => well_formed_entry e = true) (first :: rest) ->
  NoDup (map entry_id (first :: rest)) ->
  exists m cfg,
    ServerConfigManager.__init__ json_loads env = Some (inr m)
    /\ length (list_servers m) = length (first :: rest)
    /\ ServerConfig.from_kwargs first = inr cfg
    /\ get_default_server m = Some cfg.
Proof.
  intros Henv Htext Hloads Hwf Hnodup.
  destruct (well_formed_all_stored _ Hwf) as [kvs Hkvs].
  rewrite (init_from_json json_loads env text _ kvs Henv Htext Hloads Hkvs).
  rewrite (load_entries_distinct _ kvs Hkvs Hnodup empty).
  2:{ apply Forall_forall. intros e _. apply fresh_nil. }
  pose proof (Forall2_length _ _ _ Hkvs) as Hlen.
  inversion Hkvs as [|e [key cfg] es kvs' (Hk & Hid & Hkey & Hne) Hrest]; subst.
  cbn [fst snd] in *. subst key.
  exists (mk ((AStr (entry_id first), cfg) :: kvs') (AStr (entry_id first))), cfg.
  cbn [empty _servers _default_server_id app atom_truthy negb fst].
  split; [reflexivity|]. split; [|split; [exact Hk|]].
  - unfold list_servers. cbn [_servers]. rewrite length_map. symmetry. exact Hlen.
  - unfold get_default_server. cbn [_servers _default_server_id atom_truthy dict_get].
    rewrite Hne, atom_eqb_refl. reflexivity.
Qed.

(** C9, as amended.  Without [LIVEKIT_SERVERS], when the groups 1, 2 and
    3 are set, none of [LIVEKIT_NAME_1] to [LIVEKIT_NAME_3] is set to the
    empty string and [LIVEKIT_URL_4] is absent, the numbered profiles of
    the registry are exactly [server_1], [server_2], [server_3] (after
    the primary profile, if there is one), whatever is set at higher
    indices. *)
Theorem numbered_scan_stops_at_first_gap (env : gmap string string) :
  env !! "LIVEKIT_SERVERS" = None ->
  (forall j, 1 <= j <= 3 -> group_set env j = true /\ name_usable env j = true) ->
  env !! "LIVEKIT_URL_4" = None ->
  exists m,
    ServerConfigManager.__init__ json_loads env = Some (inr m)
    /\ get_server_ids m
       = ((if primary_set env then [AStr "primary"] else [])
          ++ [AStr "server_1"; AStr "server_2"; AStr "server_3"])%list.
Proof.
  intros Hjson Hgroups Hgap.
  assert (Hgap' : group_set env 4 = false).
  { unfold group_set. change (url_var 4) with "LIVEKIT_URL_4". rewrite Hgap. reflexivity. }
  rewrite (init_from_variables json_loads env 3); [| rewrite Hjson; reflexivity
                                                  | exact Hgroups | exact Hgap'].
  destruct (primary_set env); eexists; (split; [reflexivity|]);
    unfold get_server_ids; cbn [_servers map fst]; rewrite numbered_entries_ids;
    reflexivity.
Qed.

(** The guard at the end of [_load_configurations]: when
    [LIVEKIT_SERVERS] is unset or empty and neither the primary variables
    nor the numbered group 1 are set, construction raises. *)
Lemma init_raises_without_variables (env : gmap string string) :
  set (env !! "LIVEKIT_SERVERS") = false ->
  primary_set env = false ->
  group_set env 1 = false ->
  ServerConfigManager.__init__ json_loads env = Some (inl no_configuration).
Proof.
  intros Hjson Hp Hgap.
  rewrite (init_from_variables json_loads env 0 Hjson); [| intros j Hj; lia | exact Hgap].
  rewrite Hp. reflexivity.
Qed.

End RegistryClaims.

(** ** Sessions *)

Section SessionClaims.
Import SessionManager.

(** C4.  [get_current_server_id] checks the stored id against the
    registry each time it is read: its result is the stored id or
    [None]; it is the stored id only if that id resolves; it is [None]
    when the stored id does not resolve.  In particular an id that was
    selected under one registry and is missing from the current one
    reads as [None], while the session still stores it. *)
Theorem get_current_server_id_revalidates
    (manager : ServerConfigManager.t) (request : Request) :
  (get_current_server_id manager request = get_selected_server_id request
   \/ get_current_server_id manager request = ANone)
  /\ (get_current_server_id manager request <> ANone ->
      is_Some (ServerConfigManager.get_server manager (get_selected_server_id request)))
  /\ (ServerConfigManager.get_server manager (get_selected_server_id request) = None ->
      get_current_server_id manager request = ANone)
  /\ (forall (before : ServerConfigManager.t) (server_id : string)
             (session' : gmap string atom),
        set_selected_server_id before request server_id = (true, session') ->
        ServerConfigManager.get_server manager (AStr server_id) = None ->
        get_current_server_id manager (with_session request session') = ANone
        /\ get_selected_server_id (with_session request session') = AStr server_id).
Proof.
  split; [|split; [|split]].
  - unfold get_current_server_id.
    destruct (Py.atom_truthy _); [|tauto].
    destruct (ServerConfigManager.get_server _ _); tauto.
  - unfold get_current_server_id.
    destruct (Py.atom_truthy _); [|congruence].
    destruct (ServerConfigManager.get_server _ _); [eauto | congruence].
  - unfold get_current_server_id. intros ->.
    destruct (Py.atom_truthy _); reflexivity.
  - intros before server_id session' Hset Hgone.
    unfold set_selected_server_id in Hset.
    destruct (ServerConfigManager.get_server before (AStr server_id)); [|discriminate].
    injection Hset as <-.
    unfold get_current_server_id, get_selected_server_id, with_session.
    cbn [session]. rewrite lookup_insert_eq. cbn [from_option id].
    rewrite Hgone. destruct (Py.atom_truthy (AStr server_id)); split; reflexivity.
Qed.

(** C5.  [set_selected_server_id] with an id that is not in the registry
    returns [False] and leaves the session as it was; with a registered
    id it returns [True] and stores the id in the session, changing no
    other key. *)
Theorem set_selected_server_id_validates
    (manager : ServerConfigManager.t) (request : Request) (server_id : string) :
  (ServerConfigManager.get_server manager (AStr server_id) = None ->
   set_selected_server_id manager request server_id = (false, session request))
  /\ (is_Some (ServerConfigManager.get_server manager (AStr server_id)) ->
      exists session',
        set_selected_server_id manager request server_id = (true, session')
        /\ session' !! "selected_server_id" = Some (AStr server_id)
        /\ get_selected_server_id (with_session request session') = AStr server_id
        /\ forall k, k <> "selected_server_id" -> session' !! k = session request !! k).
Proof.
  unfold set_selected_server_id. split.
  - intros ->. reflexivity.
  - intros [cfg ->]. eexists. split; [reflexivity|].
    unfold get_selected_server_id, with_session, SESSION_SERVER_KEY. cbn [session].
    rewrite lookup_insert_eq. repeat split.
    intros k Hk. apply lookup_insert_ne. congruence.
Qed.

(** C6.  Logging out empties the session in one call: no key is left, so
    the session is no longer authenticated, stores no user and no server
    selection. *)
Theorem logout_clears_session (request : Request) :
  let after := with_session request (logout request) in
  SessionAuth.logout_user request = ∅
  /\ (forall k, session after !! k = None)
  /\ SessionAuth.is_authenticated after = ABool false
  /\ SessionAuth.get_current_user after = ANone
  /\ get_selected_server_id after = ANone
  /\ (forall manager, has_server_selection manager after = false).
Proof.
  cbn zeta. unfold logout, SessionAuth.logout_user, with_session.
  repeat split.
Qed.

End SessionClaims.

(** ** Hybrid authentication *)

Section AuthClaims.

(** With an unauthenticated session, [requires_admin_hybrid] is decided
    by the credentials of the [Authorization] header. *)
Lemma requires_admin_hybrid_basic (env : gmap string string) (request : Request) :
  unauthenticated request ->
  requires_admin_hybrid env request
  = match basic_credentials (headers_get (headers request) "Authorization" EmptyString) with
    | Some (username, password) =>
        match SessionAuth.verify_credentials env username password with
        | Some true =>
            (inr (AStr username), snd (SessionAuth.login_user request username))
        | _ => (inl (authentication_required request), session request)
        end
    | None => (inl (authentication_required request), session request)
    end.
Proof.
  unfold unauthenticated, requires_admin_hybrid, basic_credentials. intros ->.
  cbv zeta.
  destruct (Str.startswith _ "Basic "); [|reflexivity].
  destruct (Codec.b64decode _) as [raw|]; [|reflexivity].
  destruct (Codec.decode_utf8 raw) as [decoded|]; [|reflexivity].
  destruct (Str.split_once colon decoded) as [[username password]|]; reflexivity.
Qed.

Lemma get_current_user_unauthenticated (request : Request) :
  unauthenticated request -> SessionAuth.get_current_user request = ANone.
Proof. unfold unauthenticated, SessionAuth.get_current_user. intros ->. reflexivity. Qed.

(** C2.  A request whose session is not authenticated and whose
    [Authorization: Basic] header decodes to a user name and password
    that verify is accepted with that user name; the session it leaves
    has [is_authenticated] set to [True] and stores the user name, and
    any later request on that session is accepted through the session,
    whatever its headers. *)
Theorem basic_header_accepted_and_session_promoted
    (env : gmap string string) (request : Request) (username password : string) :
  unauthenticated request ->
  basic_credentials (headers_get (headers request) "Authorization" EmptyString)
    = Some (username, password) ->
  SessionAuth.verify_credentials env username password = Some true ->
  exists session',
    requires_admin_hybrid env request = (inr (AStr username), session')
    /\ session' !! "is_authenticated" = Some (ABool true)
    /\ session' !! "authenticated_user" = Some (AStr username)
    /\ (forall k, k <> "is_authenticated" -> k <> "authenticated_user" ->
                  session' !! k = session request !! k)
    /\ (forall (env' : gmap string string) (next : Request),
          session next = session' ->
          requires_admin_hybrid env' next = (inr (AStr username), session')).
Proof.
  intros Hun Hcred Hver.
  rewrite (requires_admin_hybrid_basic env request Hun), Hcred, Hver.
  unfold SessionAuth.login_user, SessionAuth.SESSION_USER_KEY,
    SessionAuth.SESSION_AUTH_KEY. cbn [snd].
  eexists. split; [reflexivity|]. split; [|split; [|split]].
  - rewrite lookup_insert_ne by discriminate. apply lookup_insert_eq.
  - apply lookup_insert_eq.
  - intros k H1 H2. rewrite lookup_insert_ne by congruence.
    apply lookup_insert_ne. congruence.
  - intros env' next Hnext. unfold requires_admin_hybrid.
    unfold SessionAuth.get_current_user, SessionAuth.is_authenticated,
      SessionAuth.SESSION_USER_KEY, SessionAuth.SESSION_AUTH_KEY.
    rewrite Hnext.
    rewrite lookup_insert_ne by discriminate. rewrite !lookup_insert_eq.
    reflexivity.
Qed.

(** C3, as amended.  When neither channel authenticates the request, a
    test on the text of the [Accept] header chooses what is raised: 303
    with [Location: /login] when the value of the header contains the
    text [text/html], in these very letters, wherever it stands and
    whatever weight it carries, and otherwise 401 with the challenge
    [Basic, Session]; the session is left as it was.  The test is not
    the preference the header expresses ([Accept.prefers_html]). *)
Theorem unauthenticated_response_follows_accept
    (env : gmap string string) (request : Request) :
  unauthenticated request ->
  (forall username password,
      basic_credentials (headers_get (headers request) "Authorization" EmptyString)
        = Some (username, password) ->
      SessionAuth.verify_credentials env username password <> Some true) ->
  requires_admin_hybrid env request
  = (inl (if Str.contains "text/html" (headers_get (headers request) "accept" EmptyString)
          then mkHTTPException 303 "Authentication required" [("Location", "/login")]
          else mkHTTPException 401 "Authentication required"
                 [("WWW-Authenticate", "Basic, Session")]),
     session request).
Proof.
  intros Hun Hbad. rewrite (requires_admin_hybrid_basic env request Hun).
  destruct (basic_credentials _) as [[username password]|] eqn:Hcred.
  - specialize (Hbad username password eq_refl).
    destruct (SessionAuth.verify_credentials env username password) as [[|]|];
      [congruence | reflexivity | reflexivity].
  - reflexivity.
Qed.

Variable client_sip_enabled : atom -> option pyval.
Variable get_csrf_token : Request -> string.

(** C10.  [get_current_user_hybrid] reports the user name of a Basic
    header without checking the password: on a request whose session is
    not authenticated and whose header decodes to a user name and a
    password that do not verify, it returns the user name, which
    [get_base_template_context] passes on as [current_user], while
    [requires_admin_hybrid] rejects the request. *)
Theorem hybrid_user_reported_without_verification
    (env : gmap string string) (manager : ServerConfigManager.t)
    (request : Request) (username password : string) :
  unauthenticated request ->
  basic_credentials (headers_get (headers request) "Authorization" EmptyString)
    = Some (username, password) ->
  SessionAuth.verify_credentials env username password <> Some true ->
  get_current_user_hybrid request = AStr username
  /\ current_user (get_base_template_context client_sip_enabled get_csrf_token
                     manager request) = AStr username
  /\ exists e, requires_admin_hybrid env request = (inl e, session request).
Proof.
  intros Hun Hcred Hbad.
  assert (Huser : get_current_user_hybrid request = AStr username).
  { unfold get_current_user_hybrid.
    rewrite (get_current_user_unauthenticated request Hun). cbn [Py.atom_truthy].
    unfold basic_credentials in Hcred.
    destruct (Str.startswith _ "Basic "); [|discriminate].
    destruct (Codec.b64decode _) as [raw|]; [|discriminate].
    destruct (Codec.decode_utf8 raw) as [decoded|]; [|discriminate].
    rewrite Hcred. reflexivity. }
  split; [exact Huser|]. split; [exact Huser|].
  rewrite (requires_admin_hybrid_basic env request Hun), Hcred.
  destruct (SessionAuth.verify_credentials env username password) as [[|]|];
    [congruence | eauto | eauto].
Qed.

End AuthClaims.

(** ** The claims at sample inputs *)

Import ServerConfigManager.

Local Ltac compute_now := vm_compute; reflexivity.

(** Settles a hypothesis about the groups 1 to 3 by cases on the index. *)
Local Ltac by_cases_on_index :=
  let j := fresh "j" in
  let Hj := fresh "Hj" in
  intros j Hj;
  do 4 (destruct j as [|j]; [first [lia | compute_now | split; compute_now]|]);
  lia.

(** C1 fails as stated: with the primary variables and the numbered
    group 1 set, the registry holds [primary] and [server_1]. *)
Lemma primary_and_numbered_both_loaded :
  ~ (forall (json_loads : string -> option pyval) (env : gmap string string),
        primary_set env = true ->
        group_set env 1 = true ->
        exists m,
          ServerConfigManager.__init__ json_loads env = Some (inr m)
          /\ get_server_ids m = [AStr "primary"]).
Proof.
  intros H.
  destruct (H JsonLite.loads Sample.primary_and_numbered) as (m & Hm & Hids);
    [compute_now | compute_now |].
  vm_compute in Hm. injection Hm as <-. vm_compute in Hids. discriminate.
Qed.

Lemma json_list_short_circuits_and_variables_merge_witness :
  (exists m,
      ServerConfigManager.__init__ JsonLite.loads Sample.everything = Some (inr m)
      /\ ServerConfigManager.__init__ JsonLite.loads
           (Sample.json_only Sample.two_servers) = Some (inr m)
      /\ forall a, a ∈ get_server_ids m ->
           exists e, e ∈ [Sample.entry "eu" "Europe"; Sample.entry "us" "America"]
                     /\ a = AStr (entry_id e))
  /\ (exists m,
        ServerConfigManager.__init__ JsonLite.loads Sample.primary_and_numbered
          = Some (inr m)
        /\ get_server_ids m = [AStr "primary"; AStr "server_1"]
        /\ _default_server_id m = AStr "primary"
        /\ get_default_server m = Some (primary_profile Sample.primary_and_numbered)).
Proof.
  split.
  - refine (proj1 (json_list_short_circuits_and_variables_merge
                     JsonLite.loads Sample.everything 1)
              Sample.two_servers
              [Sample.entry "eu" "Europe"; Sample.entry "us" "America"] _ _ _ _ _).
    + compute_now.
    + compute_now.
    + compute_now.
    + discriminate.
    + repeat constructor.
  - refine (proj2 (json_list_short_circuits_and_variables_merge
                     JsonLite.loads Sample.primary_and_numbered 1) _ _ _ _).
    + compute_now.
    + by_cases_on_index.
    + compute_now.
    + compute_now.
Defined.

(** C7 fails on the code: with [LIVEKIT_SERVERS] set to the empty list,
    construction returns a registry without any server instead of
    raising. *)
Theorem empty_json_list_gives_empty_registry :
  JsonLite.loads "[]" = Some (VList [])
  /\ ServerConfigManager.__init__ JsonLite.loads (Sample.json_only "[]")
     = Some (inr (mk [] ANone)).
Proof. split; compute_now. Qed.

(** C8 fails as stated: two well-formed entries with the same id leave
    one profile in the registry. *)
Lemma same_id_entries_collapse :
  ~ (forall (json_loads : string -> option pyval) (env : gmap string string)
            (text : string) (first : pyval) (rest : list pyval),
        env !! "LIVEKIT_SERVERS" = Some text ->
        Str.truthy text = true ->
        json_loads text = Some (VList (first :: rest)) ->
        Forall (fun e => well_formed_entry e = true) (first :: rest) ->
        exists m cfg,
          ServerConfigManager.__init__ json_loads env = Some (inr m)
          /\ length (list_servers m) = length (first :: rest)
          /\ ServerConfig.from_kwargs first = inr cfg
          /\ get_default_server m = Some cfg).
Proof.
  intros H.
  destruct (H JsonLite.loads (Sample.json_only Sample.same_id_twice)
              Sample.same_id_twice
              (Sample.entry "eu" "Europe") [Sample.entry "eu" "Backup"])
    as (m & cfg & Hm & Hlen & _);
    [compute_now | compute_now | compute_now | repeat constructor |].
  vm_compute in Hm. injection Hm as <-. vm_compute in Hlen. discriminate.
Qed.

Lemma json_list_with_distinct_ids_loaded_witness :
  exists m cfg,
    ServerConfigManager.__init__ JsonLite.loads
      (Sample.json_only Sample.two_servers) = Some (inr m)
    /\ length (list_servers m) = 2
    /\ ServerConfig.from_kwargs (Sample.entry "eu" "Europe") = inr cfg
    /\ get_default_server m = Some cfg.
Proof.
  refine (json_list_with_distinct_ids_loaded JsonLite.loads
            (Sample.json_only Sample.two_servers) Sample.two_servers
            (Sample.entry "eu" "Europe") [Sample.entry "us" "America"] _ _ _ _ _).
  - compute_now.
  - compute_now.
  - compute_now.
  - repeat constructor.
  - apply (bool_decide_unpack _). compute_now.
Defined.

(** C9 fails as stated: with the groups 1 to 3 set and no group 4, an
    empty [LIVEKIT_NAME_2] makes construction raise. *)
Lemma empty_name_aborts_numbered_scan :
  ~ (forall (json_loads : string -> option pyval) (env : gmap string string),
        env !! "LIVEKIT_SERVERS" = None ->
        (forall j, 1 <= j <= 3 -> group_set env j = true) ->
        env !! "LIVEKIT_URL_4" = None ->
        exists m,
          ServerConfigManager.__init__ json_loads env = Some (inr m)
          /\ get_server_ids m
             = ((if primary_set env then [AStr "primary"] else [])
                ++ [AStr "server_1"; AStr "server_2"; AStr "server_3"])%list).
Proof.
  intros H.
  destruct (H JsonLite.loads Sample.three_groups_empty_name) as (m & Hm & _);
    [compute_now | by_cases_on_index | compute_now |].
  vm_compute in Hm. discriminate.
Qed.

Lemma numbered_scan_stops_at_first_gap_witness :
  is_Some (Sample.three_groups !! "LIVEKIT_URL_5")
  /\ exists m,
       ServerConfigManager.__init__ JsonLite.loads Sample.three_groups = Some (inr m)
       /\ get_server_ids m = [AStr "server_1"; AStr "server_2"; AStr "server_3"].
Proof.
  split; [vm_compute; eauto|].
  refine (numbered_scan_stops_at_first_gap JsonLite.loads Sample.three_groups _ _ _).
  - compute_now.
  - by_cases_on_index.
  - compute_now.
Defined.

Lemma get_current_server_id_revalidates_witness :
  exists session',
    SessionManager.set_selected_server_id Sample.registry Sample.api_request "eu"
      = (true, session')
    /\ SessionManager.get_current_server_id Sample.registry
         (with_session Sample.api_request session') = AStr "eu"
    /\ SessionManager.get_current_server_id ServerConfigManager.empty
         (with_session Sample.api_request session') = ANone
    /\ SessionManager.get_selected_server_id
         (with_session Sample.api_request session') = AStr "eu".
Proof.
  exists (<["selected_server_id" := AStr "eu"]> ∅).
  split; [compute_now|]. split; [compute_now|].
  refine (proj2 (proj2 (proj2 (get_current_server_id_revalidates
                                 ServerConfigManager.empty Sample.api_request)))
            Sample.registry "eu" _ _ _).
  - compute_now.
  - compute_now.
Defined.

Lemma set_selected_server_id_validates_witness :
  SessionManager.set_selected_server_id Sample.registry Sample.api_request "us"
    = (false, session Sample.api_request)
  /\ exists session',
       SessionManager.set_selected_server_id Sample.registry Sample.api_request "eu"
         = (true, session')
       /\ session' !! "selected_server_id" = Some (AStr "eu")
       /\ SessionManager.get_selected_server_id
            (with_session Sample.api_request session') = AStr "eu"
       /\ forall k, k <> "selected_server_id" ->
                    session' !! k = session Sample.api_request !! k.
Proof.
  split.
  - refine (proj1 (set_selected_server_id_validates
                     Sample.registry Sample.api_request "us") _).
    compute_now.
  - refine (proj2 (set_selected_server_id_validates
                     Sample.registry Sample.api_request "eu") _).
    vm_compute. eauto.
Defined.

Lemma basic_header_accepted_and_session_promoted_witness :
  unauthenticated (Sample.basic_request Sample.good_header)
  /\ exists session',
       requires_admin_hybrid ∅ (Sample.basic_request Sample.good_header)
         = (inr (AStr "admin"), session')
       /\ session' !! "is_authenticated" = Some (ABool true)
       /\ session' !! "authenticated_user" = Some (AStr "admin")
       /\ (forall k, k <> "is_authenticated" -> k <> "authenticated_user" ->
                     session' !! k = session (Sample.basic_request Sample.good_header) !! k)
       /\ (forall (env' : gmap string string) (next : Request),
             session next = session' ->
             requires_admin_hybrid env' next = (inr (AStr "admin"), session')).
Proof.
  split; [compute_now|].
  refine (basic_header_accepted_and_session_promoted
            ∅ (Sample.basic_request Sample.good_header) "admin" "changeme" _ _ _);
    compute_now.
Defined.

Lemma unauthenticated_response_follows_accept_witness :
  requires_admin_hybrid ∅ Sample.browser_request
    = (inl (mkHTTPException 303 "Authentication required" [("Location", "/login")]), ∅)
  /\ requires_admin_hybrid ∅ Sample.api_request
     = (inl (mkHTTPException 401 "Authentication required"
               [("WWW-Authenticate", "Basic, Session")]), ∅)
  /\ requires_admin_hybrid ∅ (Sample.basic_request Sample.bad_header)
     = (inl (mkHTTPException 401 "Authentication required"
               [("WWW-Authenticate", "Basic, Session")]), ∅).
Proof.
  split; [|split].
  - refine (unauthenticated_response_follows_accept ∅ Sample.browser_request _ _).
    + compute_now.
    + intros username password H. vm_compute in H. discriminate.
  - refine (unauthenticated_response_follows_accept ∅ Sample.api_request _ _).
    + compute_now.
    + intros username password H. vm_compute in H. discriminate.
  - refine (unauthenticated_response_follows_accept
              ∅ (Sample.basic_request Sample.bad_header) _ _).
    + compute_now.
    + intros username password H. vm_compute in H. injection H as <- <-.
      vm_compute. discriminate.
Defined.

(** The preference of some Accept headers, and the test the program
    makes on them. *)
Lemma accept_preference_samples :
  Accept.prefers_html "text/html,application/xhtml+xml,application/xml;q=0.9,*/*;q=0.8"
    = true
  /\ Accept.prefers_html "application/json" = false
  /\ Accept.prefers_html "application/json, text/html;q=0.1" = false
  /\ Str.contains "text/html" "application/json, text/html;q=0.1" = true
  /\ Accept.prefers_html "text/html;q=0" = false
  /\ Str.contains "text/html" "text/html;q=0" = true
  /\ Accept.prefers_html "TEXT/HTML" = true
  /\ Str.contains "text/html" "TEXT/HTML" = false.
Proof. repeat split; compute_now. Qed.

(** C3 fails as worded.  The response does not follow the preference of
    the [Accept] header: on [Sample.json_first_request], which fails both
    channels and whose header prefers JSON and gives HTML the weight 0.1,
    the program raises the redirect to the login page, not the 401. *)
Lemma accept_preference_not_consulted :
  ~ (forall (env : gmap string string) (request : Request),
        unauthenticated request ->
        (forall username password,
            basic_credentials (headers_get (headers request) "Authorization" EmptyString)
              = Some (username, password) ->
            SessionAuth.verify_credentials env username password <> Some true) ->
        requires_admin_hybrid env request
        = (inl (if Accept.prefers_html
                     (headers_get (headers request) "accept" EmptyString)
                then mkHTTPException 303 "Authentication required"
                       [("Location", "/login")]
                else mkHTTPException 401 "Authentication required"
                       [("WWW-Authenticate", "Basic, Session")]),
           session request)).
Proof.
  intros H.
  assert (Hu : unauthenticated Sample.json_first_request) by compute_now.
  specialize (H ∅ Sample.json_first_request Hu).
  assert (Hb : forall username password,
             basic_credentials
               (headers_get (headers Sample.json_first_request) "Authorization" EmptyString)
               = Some (username, password) ->
             SessionAuth.verify_credentials ∅ username password <> Some true).
  { intros username password Hc. vm_compute in Hc. discriminate. }
  specialize (H Hb). vm_compute in H. discriminate.
Qed.

(** Nor does it in the other direction: on [Sample.capitals_request],
    whose header asks for HTML alone, the program raises the 401. *)
Lemma capitals_request_unauthorized :
  Accept.prefers_html (headers_get (headers Sample.capitals_request) "accept" EmptyString)
    = true
  /\ requires_admin_hybrid ∅ Sample.capitals_request
     = (inl (mkHTTPException 401 "Authentication required"
               [("WWW-Authenticate", "Basic, Session")]), ∅).
Proof. split; compute_now. Qed.

Lemma hybrid_user_reported_without_verification_witness :
  basic_credentials
    (headers_get (headers (Sample.basic_request Sample.bad_header))
       "Authorization" EmptyString) = Some ("admin", "wrong")
  /\ SessionAuth.verify_credentials ∅ "admin" "wrong" = Some false
  /\ get_current_user_hybrid (Sample.basic_request Sample.bad_header) = AStr "admin"
  /\ current_user
       (get_base_template_context (fun _ => None) (fun _ => "token")
          Sample.registry (Sample.basic_request Sample.bad_header)) = AStr "admin"
  /\ exists e,
       requires_admin_hybrid ∅ (Sample.basic_request Sample.bad_header)
         = (inl e, session (Sample.basic_request Sample.bad_header)).
Proof.
  split; [compute_now|]. split; [compute_now|].
  refine (hybrid_user_reported_without_verification
            (fun _ => None) (fun _ => "token") ∅ Sample.registry
            (Sample.basic_request Sample.bad_header) "admin" "wrong" _ _ _).
  - compute_now.
  - compute_now.
  - vm_compute. discriminate.
Defined.

(** * Further properties *)

(** ** Invariants of the registry *)

Module InvariantFacts.
Import Py ServerConfigManager DictFacts LoaderFacts JsonFacts.

Lemma atom_eqb_norm (a b : atom) :
  atom_eqb a b = true <-> atom_norm a = atom_norm b.
Proof.
  destruct a as [|x|x|x], b as [|y|y|y]; simpl; split; intros H;
    try discriminate; try reflexivity;
    try (apply Bool.eqb_prop in H); try (apply Z.eqb_eq in H);
    try (apply String.eqb_eq in H); subst; try reflexivity;
    inversion H; subst;
    first [ apply Z.eqb_refl | apply String.eqb_refl
          | match goal with |- Bool.eqb ?p ?q = true => destruct p, q; try discriminate; reflexivity end
          | (symmetry; assumption) | assumption ].
Qed.

Lemma atom_eqb_sym (a b : atom) : atom_eqb a b = atom_eqb b a.
Proof.
  destruct (atom_eqb a b) eqn:Hab, (atom_eqb b a) eqn:Hba; try reflexivity.
  - apply atom_eqb_norm in Hab. symmetry in Hab. apply atom_eqb_norm in Hab. congruence.
  - apply atom_eqb_norm in Hba. symmetry in Hba. apply atom_eqb_norm in Hba. congruence.
Qed.

(** Equal keys compare alike with any third key. *)
Lemma atom_eqb_compat (a b c : atom) :
  atom_eqb a b = true -> atom_eqb c a = atom_eqb c b.
Proof.
  intros Hab. apply atom_eqb_norm in Hab.
  destruct (atom_eqb c a) eqn:Hca, (atom_eqb c b) eqn:Hcb; try reflexivity.
  - apply atom_eqb_norm in Hca. rewrite Hab in Hca. apply atom_eqb_norm in Hca. congruence.
  - apply atom_eqb_norm in Hcb. rewrite <- Hab in Hcb. apply atom_eqb_norm in Hcb. congruence.
Qed.

Lemma atom_eqb_truthy (a b : atom) :
  atom_eqb a b = true -> atom_truthy a = atom_truthy b.
Proof.
  destruct a as [|x|x|x], b as [|y|y|y]; simpl; intros H; try discriminate;
    try reflexivity.
  - apply Bool.eqb_prop in H. subst. reflexivity.
  - apply Z.eqb_eq in H. subst. destruct x; reflexivity.
  - apply Z.eqb_eq in H. subst. destruct y; reflexivity.
  - apply Z.eqb_eq in H. subst. reflexivity.
  - apply String.eqb_eq in H. subst. reflexivity.
Qed.

(** *** Insert and lookup *)

Lemma dict_get_set_eq {V} (d : dict V) (k : atom) (v : V) :
  dict_get (dict_set d k v) k = Some v.
Proof.
  induction d as [|[k' v'] d IH]; cbn [dict_set dict_get].
  - rewrite atom_eqb_refl. reflexivity.
  - destruct (atom_eqb k' k) eqn:Hk; cbn [dict_get]; rewrite Hk; [reflexivity | exact IH].
Qed.

Lemma atom_eqb_left (a b c : atom) :
  atom_eqb a b = true -> atom_eqb a c = atom_eqb b c.
Proof.
  intros Hab. rewrite (atom_eqb_sym a c), (atom_eqb_sym b c).
  apply atom_eqb_compat. exact Hab.
Qed.

Lemma dict_get_set_ne {V} (d : dict V) (k k' : atom) (v : V) :
  atom_eqb k k' = false -> dict_get (dict_set d k v) k' = dict_get d k'.
Proof.
  intros Hne. induction d as [|[k0 v0] d IH]; cbn [dict_set dict_get].
  - rewrite Hne. reflexivity.
  - destruct (atom_eqb k0 k) eqn:Hk; cbn [dict_get].
    + rewrite (atom_eqb_left _ _ k' Hk), Hne. reflexivity.
    + destruct (atom_eqb k0 k'); [reflexivity | exact IH].
Qed.

Lemma dict_get_compat {V} (d : dict V) (a b : atom) :
  atom_eqb a b = true -> dict_get d a = dict_get d b.
Proof.
  intros Hab. induction d as [|[k0 v0] d IH]; cbn [dict_get]; [reflexivity|].
  rewrite (atom_eqb_compat _ _ k0 Hab), IH. reflexivity.
Qed.

Lemma dict_get_set_is_Some {V} (d : dict V) (k k' : atom) (v : V) :
  is_Some (dict_get d k') -> is_Some (dict_get (dict_set d k v) k').
Proof.
  intros H. destruct (atom_eqb k k') eqn:Hk.
  - rewrite <- (dict_get_compat _ _ _ Hk), dict_get_set_eq. eauto.
  - rewrite (dict_get_set_ne d k k' v Hk). exact H.
Qed.

Lemma dict_get_In {V} (d : dict V) (k : atom) (v : V) :
  dict_get d k = Some v -> exists k', (k', v) ∈ d /\ atom_eqb k' k = true.
Proof.
  induction d as [|[k0 v0] d IH]; cbn [dict_get]; [discriminate|].
  destruct (atom_eqb k0 k) eqn:Hk.
  - intros [= ->]. exists k0. split; [apply elem_of_cons; tauto | exact Hk].
  - intros H. destruct (IH H) as (k' & Hin & Hk'). exists k'.
    split; [apply elem_of_cons; tauto | exact Hk'].
Qed.

(** With pairwise different keys, every pair of the dict is found under
    its key, and under any key equal to it. *)
Lemma dict_get_distinct {V} (d : dict V) (k a : atom) (v : V) :
  distinct_keys d -> (k, v) ∈ d -> atom_eqb k a = true -> dict_get d a = Some v.
Proof.
  induction 1 as [|k0 v0 d Hfresh Hd IH]; intros Hin Hka.
  - apply elem_of_nil in Hin. destruct Hin.
  - cbn [dict_get]. apply elem_of_cons in Hin as [[= -> ->]|Hin].
    + rewrite Hka. reflexivity.
    + assert (Hne : atom_eqb k0 a = false).
      { unfold fresh in Hfresh. rewrite Forall_forall in Hfresh.
        specialize (Hfresh _ Hin). cbn [fst] in Hfresh.
        rewrite <- (atom_eqb_compat _ _ k0 Hka), atom_eqb_sym. exact Hfresh. }
      rewrite Hne. exact (IH Hin Hka).
Qed.

(** *** [dict_set] keeps the invariants *)

Lemma fresh_set {V} (d : dict V) (k k' : atom) (v : V) :
  fresh d k' -> atom_eqb k k' = false -> fresh (dict_set d k v) k'.
Proof.
  intros Hd Hk. induction Hd as [|[k0 v0] d Hk0 Hd IH]; cbn [dict_set].
  - constructor; [exact Hk | constructor].
  - destruct (atom_eqb k0 k); constructor; assumption.
Qed.

Lemma distinct_keys_set {V} (d : dict V) (k : atom) (v : V) :
  distinct_keys d -> distinct_keys (dict_set d k v).
Proof.
  induction 1 as [|k0 v0 d Hfresh Hd IH]; cbn [dict_set].
  - constructor; constructor.
  - destruct (atom_eqb k0 k) eqn:Hk; constructor; auto.
    apply fresh_set; [exact Hfresh|]. rewrite atom_eqb_sym. exact Hk.
Qed.

Lemma entry_ok_set (d : dict ServerConfig.t) (k : atom) (v : ServerConfig.t) :
  Forall entry_ok d -> entry_ok (k, v) -> Forall entry_ok (dict_set d k v).
Proof.
  intros Hd (Ht & (a & Ha & Hka) & Hv).
  induction Hd as [|[k0 v0] d Hk0 Hd IH]; cbn [dict_set].
  - constructor; [|constructor]. repeat split; eauto.
  - destruct (atom_eqb k0 k) eqn:Hk; constructor; try assumption.
    destruct Hk0 as (Ht0 & _ & _). cbn [fst snd] in *.
    split; [exact Ht0|]. split; [|exact Hv].
    exists a. split; [exact Ha|]. cbn [fst]. rewrite (atom_eqb_left _ _ a Hk). exact Hka.
Qed.

(** Storing a valid profile under its id keeps the registry well formed;
    the default changes only when there was none. *)
Lemma registry_ok_store (self : t) (k : atom) (v : ServerConfig.t) (dflt : atom) :
  registry_ok self -> entry_ok (k, v) ->
  dflt = k \/ (atom_truthy (_default_server_id self) = true
               /\ dflt = _default_server_id self) ->
  registry_ok (mk (dict_set (_servers self) k v) dflt).
Proof.
  intros (He & Hd & Hdef) Hkv Hdflt. split; [|split]; cbn [_servers _default_server_id].
  - apply entry_ok_set; assumption.
  - apply distinct_keys_set; assumption.
  - right. cbn [_servers _default_server_id]. destruct Hdflt as [->|[Ht ->]].
    + split; [exact (proj1 Hkv)|]. rewrite dict_get_set_eq. eauto.
    + split; [exact Ht|]. apply dict_get_set_is_Some.
      destruct Hdef as [[_ Hnone]|[_ Hsome]]; [|exact Hsome].
      rewrite Hnone in Ht. discriminate.
Qed.

Lemma registry_ok_empty : registry_ok empty.
Proof.
  split; [constructor|]. split; [constructor|]. left. split; reflexivity.
Qed.

End InvariantFacts.

Module RegistryInvariant.
Import Py ServerConfigManager DictFacts LoaderFacts JsonFacts InvariantFacts.

Lemma init_valid (i n u k s sip d : pyval) (cfg : ServerConfig.t) :
  ServerConfig.__init__ i n u k s sip d = inr cfg ->
  cfg = ServerConfig.mk i n u k s sip d /\ ServerConfig.__post_init__ cfg = inr tt.
Proof.
  unfold ServerConfig.__init__.
  destruct (ServerConfig.__post_init__ _) as [e|[]] eqn:Hv; [discriminate|].
  intros [= <-]. split; [reflexivity | exact Hv].
Qed.

Lemma valid_id_truthy (cfg : ServerConfig.t) :
  ServerConfig.__post_init__ cfg = inr tt -> truthy (ServerConfig.id cfg) = true.
Proof.
  unfold ServerConfig.__post_init__.
  destruct (truthy (ServerConfig.id cfg)); [reflexivity | discriminate].
Qed.

Lemma from_kwargs_valid (e : pyval) (cfg : ServerConfig.t) :
  ServerConfig.from_kwargs e = inr cfg -> ServerConfig.__post_init__ cfg = inr tt.
Proof.
  unfold ServerConfig.from_kwargs. destruct e as [a|l|m]; try discriminate.
  destruct (forallb _ m); [|discriminate].
  destruct (member m "id"), (member m "name"), (member m "url"),
    (member m "api_key"), (member m "api_secret"); try discriminate.
  intros H. apply init_valid in H. tauto.
Qed.

(** A valid profile with a hashable id is a well-formed entry under that
    id. *)
Lemma entry_ok_valid (cfg : ServerConfig.t) (key : atom) :
  ServerConfig.__post_init__ cfg = inr tt ->
  as_key (ServerConfig.id cfg) = Some key ->
  entry_ok (key, cfg).
Proof.
  intros Hv Hk. split; [|split; [|exact Hv]]; cbn [fst snd].
  - pose proof (valid_id_truthy cfg Hv) as Ht.
    destruct (ServerConfig.id cfg); try discriminate.
    injection Hk as <-. exact Ht.
  - exists key. split; [exact Hk | apply atom_eqb_refl].
Qed.

Lemma default_choice (self : t) (key : atom) :
  (if negb (atom_truthy (_default_server_id self)) then key
   else _default_server_id self) = key
  \/ (atom_truthy (_default_server_id self) = true
      /\ (if negb (atom_truthy (_default_server_id self)) then key
          else _default_server_id self) = _default_server_id self).
Proof. destruct (atom_truthy (_default_server_id self)); cbn [negb]; tauto. Qed.

(** The loop over the JSON list keeps the registry well formed, also
    when it stops at a bad entry. *)
Lemma load_entries_ok (entries : list pyval) :
  forall self, registry_ok self -> registry_ok (fst (load_entries entries self)).
Proof.
  induction entries as [|e entries IH]; intros self Hok; cbn [load_entries];
    [exact Hok|].
  destruct (ServerConfig.from_kwargs e) as [err|server] eqn:He; [exact Hok|].
  destruct (as_key (ServerConfig.id server)) as [key|] eqn:Hk; [|exact Hok].
  apply IH. apply registry_ok_store; [exact Hok | | apply default_choice].
  apply entry_ok_valid; [exact (from_kwargs_valid _ _ He) | exact Hk].
Qed.

Lemma load_primary_ok (env : gmap string string) (self self' : t) :
  registry_ok self -> load_primary env self = inr self' -> registry_ok self'.
Proof.
  intros Hok. unfold load_primary.
  destruct (_ && _); [|intros [= <-]; exact Hok].
  destruct (ServerConfig.__init__ _ _ _ _ _ _ _) as [e|cfg] eqn:Hc; [discriminate|].
  intros [= <-]. apply init_valid in Hc as [-> Hv].
  apply registry_ok_store; [exact Hok | | left; reflexivity].
  apply entry_ok_valid; [exact Hv | reflexivity].
Qed.

Lemma load_numbered_ok (env : gmap string string) (fuel : nat) :
  forall (i : nat) (self self' : t),
    registry_ok self ->
    load_numbered fuel env i self = Some (inr self') -> registry_ok self'.
Proof.
  induction fuel as [|fuel IH]; intros i self self' Hok; cbn [load_numbered];
    [discriminate|].
  destruct (negb _); [intros [= <-]; exact Hok|].
  destruct (ServerConfig.__init__ _ _ _ _ _ _ _) as [e|cfg] eqn:Hc; [discriminate|].
  apply init_valid in Hc as [-> Hv]. apply IH.
  apply registry_ok_store; [exact Hok | | apply default_choice].
  apply entry_ok_valid; [exact Hv | reflexivity].
Qed.

Lemma _load_configurations_ok (json_loads : string -> option pyval)
    (env : gmap string string) (self self' : t) :
  registry_ok self ->
  _load_configurations json_loads env self = Some (inr self') -> registry_ok self'.
Proof.
  intros Hok. unfold _load_configurations.
  assert (Hjson : registry_ok (fst (load_json json_loads env self))).
  { unfold load_json. destruct (env !! "LIVEKIT_SERVERS") as [text|]; [|exact Hok].
    destruct (Str.truthy text); [|exact Hok].
    destruct (json_loads text) as [v|]; [|exact Hok].
    destruct (items v) as [entries|]; [|exact Hok].
    pose proof (load_entries_ok entries self Hok) as H.
    destruct (load_entries entries self) as [self1 [e|]]; exact H. }
  destruct (load_json json_loads env self) as [self1 [|]]; cbn [fst] in Hjson.
  - intros [= <-]. exact Hjson.
  - destruct (load_primary env self1) as [e|self2] eqn:Hp; [discriminate|].
    pose proof (load_primary_ok env self1 self2 Hjson Hp) as H2.
    destruct (load_numbered _ env 1 self2) as [[e|self3]|] eqn:Hn; try discriminate.
    pose proof (load_numbered_ok env _ 1 self2 self3 H2 Hn) as H3.
    destruct (_servers self3); [discriminate|]. intros [= <-]. exact H3.
Qed.

End RegistryInvariant.

Module RegistryOkFacts.
Import Py ServerConfigManager DictFacts InvariantFacts RegistryInvariant.

Lemma registry_ok_listed (m : t) (cfg : ServerConfig.t) :
  registry_ok m -> cfg ∈ list_servers m ->
  ServerConfig.__post_init__ cfg = inr tt
  /\ exists a, as_key (ServerConfig.id cfg) = Some a /\ get_server m a = Some cfg.
Proof.
  intros (Hentries & Hdistinct & _) Hin. rewrite Forall_forall in Hentries.
  unfold list_servers, get_server in *.
  apply list_elem_of_fmap in Hin as ([k cfg'] & -> & Hin).
  destruct (Hentries _ Hin) as (_ & (a & Ha & Hka) & Hv). cbn [fst snd] in *.
  split; [exact Hv|]. exists a. split; [exact Ha|].
  exact (dict_get_distinct _ k a cfg' Hdistinct Hin Hka).
Qed.

Lemma registry_ok_get (m : t) (a : atom) (cfg : ServerConfig.t) :
  registry_ok m -> get_server m a = Some cfg ->
  cfg ∈ list_servers m
  /\ atom_truthy a = true
  /\ exists a', as_key (ServerConfig.id cfg) = Some a' /\ atom_eqb a a' = true.
Proof.
  intros (Hentries & _ & _) Hget. rewrite Forall_forall in Hentries.
  unfold list_servers, get_server in *.
  destruct (dict_get_In _ _ _ Hget) as (k & Hin & Hk).
  split; [apply list_elem_of_fmap; exists (k, cfg); split; [reflexivity | exact Hin]|].
  destruct (Hentries _ Hin) as (Ht & (a' & Ha' & Hka') & _). cbn [fst snd] in *.
  split; [rewrite <- (atom_eqb_truthy _ _ Hk); exact Ht|].
  exists a'. split; [exact Ha'|].
  rewrite atom_eqb_sym in Hk. rewrite (atom_eqb_left _ _ a' Hk). exact Hka'.
Qed.

Lemma registry_ok_default (m : t) :
  registry_ok m ->
  (list_servers m = [] /\ get_default_server m = None)
  \/ (exists cfg, get_default_server m = Some cfg /\ cfg ∈ list_servers m).
Proof.
  intros (_ & _ & Hdef). unfold get_default_server, list_servers.
  destruct Hdef as [[Hnil Hnone]|[Ht [cfg Hcfg]]].
  - left. rewrite Hnil, Hnone. split; reflexivity.
  - right. exists cfg. rewrite Ht. split; [exact Hcfg|].
    destruct (dict_get_In _ _ _ Hcfg) as (k & Hin & _).
    apply list_elem_of_fmap. exists (k, cfg). split; [reflexivity | exact Hin].
Qed.

End RegistryOkFacts.

Section RegistryInvariantTheorems.
Import Py ServerConfigManager DictFacts InvariantFacts RegistryInvariant RegistryOkFacts.

Variable json_loads : string -> option pyval.

(** Every registry that construction returns is well formed. *)
Lemma init_registry_ok (env : gmap string string) (m : ServerConfigManager.t) :
  ServerConfigManager.__init__ json_loads env = Some (inr m) -> registry_ok m.
Proof. apply _load_configurations_ok. apply registry_ok_empty. Qed.

(** X1.  In a registry that construction returned, from any environment,
    every listed profile has passed validation and is the one [get_server]
    returns for its own id; conversely the profile [get_server] returns for
    an id is listed and carries that id. *)
Theorem constructed_registry_is_consistent
    (env : gmap string string) (m : ServerConfigManager.t) :
  ServerConfigManager.__init__ json_loads env = Some (inr m) ->
  (forall cfg, cfg ∈ list_servers m ->
     ServerConfig.__post_init__ cfg = inr tt
     /\ exists a, as_key (ServerConfig.id cfg) = Some a /\ get_server m a = Some cfg)
  /\ (forall a cfg, get_server m a = Some cfg ->
        cfg ∈ list_servers m
        /\ exists a', as_key (ServerConfig.id cfg) = Some a' /\ atom_eqb a a' = true).
Proof.
  intros Hinit. pose proof (init_registry_ok env m Hinit) as Hok. split.
  - intros cfg Hin. exact (registry_ok_listed m cfg Hok Hin).
  - intros a cfg Hget. destruct (registry_ok_get m a cfg Hok Hget) as (H1 & _ & H2).
    split; assumption.
Qed.

(** X2.  In a registry that construction returned, the default profile
    exists as soon as there is any profile, and it is one of the listed
    profiles; only the registry without profiles has no default. *)
Theorem constructed_registry_has_default
    (env : gmap string string) (m : ServerConfigManager.t) :
  ServerConfigManager.__init__ json_loads env = Some (inr m) ->
  (list_servers m = [] /\ get_default_server m = None)
  \/ (exists cfg, get_default_server m = Some cfg /\ cfg ∈ list_servers m).
Proof. intros Hinit. exact (registry_ok_default m (init_registry_ok env m Hinit)). Qed.

End RegistryInvariantTheorems.

Module FallbackFacts.
Import Py ServerConfigManager DictFacts LoaderFacts JsonFacts InvariantFacts.







End FallbackFacts.

Section FallbackTheorems.
Import Py ServerConfigManager DictFacts LoaderFacts JsonFacts InvariantFacts FallbackFacts.

Variable json_loads : string -> option pyval.




End FallbackTheorems.

Section ManagerTheorems.
Import Py ServerConfigManager DictFacts LoaderFacts JsonFacts InvariantFacts RegistryOkFacts.

Variable json_loads : string -> option pyval.

(** X5.  The registry is built once.  After a call of
    [get_server_config_manager] that returned a registry, every later call
    returns the same registry and leaves the global as it is, whatever the
    environment has become; a call in which construction raises leaves
    the global unset. *)
Theorem registry_built_once
    (env : gmap string string) (r : exn + ServerConfigManager.t)
    (g : option ServerConfigManager.t) :
  get_server_config_manager json_loads env None = Some (r, g) ->
  match r with
  | inr manager =>
      ServerConfigManager.__init__ json_loads env = Some (inr manager)
      /\ forall env', get_server_config_manager json_loads env' g
                      = Some (inr manager, g)
  | inl e =>
      g = None /\ ServerConfigManager.__init__ json_loads env = Some (inl e)
  end.
Proof.
  unfold get_server_config_manager.
  destruct (ServerConfigManager.__init__ json_loads env) as [[e|m]|]; [| |discriminate].
  - intros [= <- <-]. split; reflexivity.
  - intros [= <- <-]. split; reflexivity.
Qed.

Lemma in_keys_get {V} (d : dict V) (k : atom) :
  existsb (fun kv => atom_eqb (fst kv) k) d = true <-> is_Some (dict_get d k).
Proof.
  induction d as [|[k0 v0] d IH]; cbn [existsb dict_get fst].
  - split; [discriminate | intros [x Hx]; discriminate].
  - destruct (atom_eqb k0 k); cbn [orb]; [split; eauto | exact IH].
Qed.

(** X6.  [set_default_server] with an id that is not registered returns
    [False] and changes nothing; with a registered id of a constructed
    registry it returns [True], keeps the profiles, and the default
    profile is from then on the profile of that id. *)
Theorem set_default_server_switches
    (env : gmap string string) (m : ServerConfigManager.t) (server_id : atom) :
  ServerConfigManager.__init__ json_loads env = Some (inr m) ->
  (get_server m server_id = None -> set_default_server m server_id = (m, false))
  /\ (forall cfg, get_server m server_id = Some cfg ->
        exists m', set_default_server m server_id = (m', true)
                   /\ list_servers m' = list_servers m
                   /\ get_default_server m' = Some cfg
                   /\ forall a, get_server m' a = get_server m a).
Proof.
  intros Hinit. pose proof (init_registry_ok json_loads env m Hinit) as Hok. split.
  - unfold set_default_server, get_server. intros Hnone.
    destruct (existsb _ _) eqn:Hex; [|reflexivity].
    apply in_keys_get in Hex as [x Hx]. congruence.
  - intros cfg Hcfg. destruct (registry_ok_get m _ cfg Hok Hcfg) as (_ & Ht & _).
    unfold set_default_server, get_server in *.
    assert (Hex : existsb (fun kv => atom_eqb (fst kv) server_id) (_servers m) = true)
      by (apply in_keys_get; eauto).
    rewrite Hex. eexists. split; [reflexivity|].
    unfold list_servers, get_default_server. cbn [_servers _default_server_id].
    split; [reflexivity|]. split; [|reflexivity]. rewrite Ht. exact Hcfg.
Qed.

(** X7.  [get_server_config] on a constructed registry returns only
    listed profiles.  For a non-empty id it returns the profile with that
    very id and raises for an unknown id, without falling back to the
    default; for a missing or empty id it returns the default profile and
    raises only when the registry has no profile at all. *)
Theorem get_server_config_resolves
    (env : gmap string string) (m : ServerConfigManager.t) (server_id : option string) :
  ServerConfigManager.__init__ json_loads env = Some (inr m) ->
  match get_server_config m server_id with
  | inr cfg =>
      cfg ∈ list_servers m
      /\ (set server_id = true ->
          ServerConfig.id cfg = VAtom (AStr (default EmptyString server_id)))
      /\ (set server_id = false -> get_default_server m = Some cfg)
  | inl e =>
      (set server_id = true
       /\ get_server m (AStr (default EmptyString server_id)) = None
       /\ e = ValueError ("Server configuration not found: "
                          +:+ default EmptyString server_id))
      \/ (set server_id = false /\ list_servers m = []
          /\ e = ValueError "No default server configuration available")
  end.
Proof.
  intros Hinit. pose proof (init_registry_ok json_loads env m Hinit) as Hok.
  unfold get_server_config.
  destruct (set server_id) eqn:Hset.
  - destruct (get_server m (AStr _)) as [cfg|] eqn:Hget.
    + destruct (registry_ok_get m _ cfg Hok Hget) as (Hin & _ & a' & Ha' & Heq).
      split; [exact Hin|]. split; [|discriminate]. intros _.
      destruct (ServerConfig.id cfg) as [a| |]; try discriminate.
      injection Ha' as ->. destruct a'; try discriminate.
      apply atom_eqb_str in Heq. subst. reflexivity.
    + left. repeat split.
  - destruct (registry_ok_default m Hok) as [[Hnil Hnone]|(cfg & Hcfg & Hin)].
    + rewrite Hnone. right. repeat split. exact Hnil.
    + rewrite Hcfg. split; [exact Hin|]. split; [discriminate | reflexivity].
Qed.

End ManagerTheorems.

Section SessionTheorems.
Import Py SessionManager RegistryOkFacts.

Variable json_loads : string -> option pyval.

(** X8.  Selecting and reading back.  On a constructed registry, after
    [set_selected_server_id] has stored a registered id,
    [get_current_server_id] returns that id and [has_server_selection]
    holds, for as long as the registry is the same. *)
Theorem selection_round_trip
    (env : gmap string string) (manager : ServerConfigManager.t)
    (request : Request) (server_id : string) :
  ServerConfigManager.__init__ json_loads env = Some (inr manager) ->
  is_Some (ServerConfigManager.get_server manager (AStr server_id)) ->
  exists session',
    set_selected_server_id manager request server_id = (true, session')
    /\ get_current_server_id manager (with_session request session') = AStr server_id
    /\ has_server_selection manager (with_session request session') = true.
Proof.
  intros Hinit [cfg Hcfg].
  destruct (registry_ok_get manager _ cfg (init_registry_ok json_loads env manager Hinit) Hcfg)
    as (_ & Ht & _).
  unfold set_selected_server_id. rewrite Hcfg. eexists. split; [reflexivity|].
  unfold has_server_selection, get_current_server_id, get_selected_server_id, with_session.
  cbn [session]. rewrite lookup_insert_eq. cbn [from_option id].
  rewrite Ht, Hcfg. split; reflexivity.
Qed.

(** X9.  [clear_server_selection] removes the selection and nothing
    else: the other keys (the authentication among them) keep their
    values, clearing twice is clearing once, and afterwards no server is
    current in any registry. *)
Theorem clear_server_selection_only_selection (request : Request) :
  let session' := clear_server_selection request in
  session' !! "selected_server_id" = None
  /\ (forall k, k <> "selected_server_id" -> session' !! k = session request !! k)
  /\ clear_server_selection (with_session request session') = session'
  /\ SessionAuth.is_authenticated (with_session request session')
     = SessionAuth.is_authenticated request
  /\ (forall manager,
        get_current_server_id manager (with_session request session') = ANone
        /\ has_server_selection manager (with_session request session') = false).
Proof.
  cbn zeta.
  assert (Hnone : clear_server_selection request !! "selected_server_id" = None).
  { unfold clear_server_selection, SESSION_SERVER_KEY.
    destruct (session request !! "selected_server_id") eqn:H;
      [apply lookup_delete_eq | exact H]. }
  assert (Hother : forall k, k <> "selected_server_id" ->
                     clear_server_selection request !! k = session request !! k).
  { intros k Hk. unfold clear_server_selection, SESSION_SERVER_KEY.
    destruct (session request !! "selected_server_id");
      [apply lookup_delete_ne; congruence | reflexivity]. }
  split; [exact Hnone|]. split; [exact Hother|]. split; [|split].
  - unfold clear_server_selection at 1, with_session, SESSION_SERVER_KEY. cbn [session].
    rewrite Hnone. reflexivity.
  - unfold SessionAuth.is_authenticated, with_session, SessionAuth.SESSION_AUTH_KEY.
    cbn [session]. rewrite Hother by discriminate. reflexivity.
  - intros manager.
    unfold has_server_selection, get_current_server_id, get_selected_server_id,
      with_session, SESSION_SERVER_KEY. cbn [session]. rewrite Hnone. split; reflexivity.
Qed.

End SessionTheorems.

Section AuthTheorems.
Import Py.

(** X10.  [verify_credentials] returns [True] exactly for the configured
    user name and password, which are [admin] and [changeme] when the
    variables are unset; a wrong password is never accepted. *)
Theorem verify_credentials_exact
    (env : gmap string string) (username password : string) :
  SessionAuth.verify_credentials env username password = Some true
  <-> Codec.utf8_valid username = true
      /\ Codec.utf8_valid password = true
      /\ username = default "admin" (env !! "ADMIN_USERNAME")
      /\ password = default "changeme" (env !! "ADMIN_PASSWORD").
Proof.
  unfold SessionAuth.verify_credentials, Codec.encode_utf8.
  set (cu := default "admin" (env !! "ADMIN_USERNAME")).
  set (cp := default "changeme" (env !! "ADMIN_PASSWORD")).
  split.
  - destruct (Codec.utf8_valid username) eqn:Hu; [|discriminate].
    destruct (Codec.utf8_valid cu); [|discriminate].
    destruct (Codec.utf8_valid password) eqn:Hp; [|discriminate].
    destruct (Codec.utf8_valid cp); [|discriminate].
    intros [= H]. apply andb_prop in H as [H1 H2].
    apply String.eqb_eq in H1, H2. tauto.
  - intros (Hu & Hp & -> & ->). rewrite Hu, Hp, !String.eqb_refl. reflexivity.
Qed.

(** X11.  The hybrid check extends the session check: a request that
    [requires_auth] accepts is accepted by [requires_admin_hybrid] with
    the same user and an untouched session, whatever headers it carries
    and whatever the configured credentials are. *)
Theorem hybrid_extends_session_auth
    (env : gmap string string) (request : Request) (user : atom) :
  requires_auth request = inr user ->
  requires_admin_hybrid env request = (inr user, session request).
Proof.
  unfold requires_auth, requires_admin_hybrid.
  destruct (atom_truthy (SessionAuth.is_authenticated request)); cbn [negb].
  - intros [= <-]. reflexivity.
  - destruct (Str.contains _ _); discriminate.
Qed.

(** X12.  [requires_admin_hybrid] accepts for one of two reasons only:
    the session was already authenticated, and then the session is left
    as it was and the user is the stored one; or the Basic header decodes
    to credentials that verify, and then the user is the decoded name and
    the session is the one [login_user] writes.  Either way the session
    it leaves is authenticated. *)
Theorem hybrid_accepts_only_authenticated
    (env : gmap string string) (request : Request) (user : atom)
    (session' : gmap string atom) :
  requires_admin_hybrid env request = (inr user, session') ->
  atom_truthy (SessionAuth.is_authenticated (with_session request session')) = true
  /\ ((atom_truthy (SessionAuth.is_authenticated request) = true
       /\ session' = session request
       /\ user = SessionAuth.get_current_user request)
      \/ (unauthenticated request
          /\ exists username password,
               basic_credentials
                 (headers_get (headers request) "Authorization" EmptyString)
               = Some (username, password)
               /\ SessionAuth.verify_credentials env username password = Some true
               /\ user = AStr username
               /\ session' = snd (SessionAuth.login_user request username))).
Proof.
  destruct (atom_truthy (SessionAuth.is_authenticated request)) eqn:Hauth.
  - unfold requires_admin_hybrid. rewrite Hauth. intros [= <- <-].
    split; [destruct request; exact Hauth|]. left. repeat split; congruence.
  - rewrite (requires_admin_hybrid_basic env request Hauth).
    destruct (basic_credentials _) as [[username password]|] eqn:Hcred; [|discriminate].
    destruct (SessionAuth.verify_credentials env username password) as [[|]|] eqn:Hv;
      try discriminate.
    intros [= <- <-]. split.
    + unfold SessionAuth.is_authenticated, SessionAuth.login_user, with_session,
        SessionAuth.SESSION_AUTH_KEY, SessionAuth.SESSION_USER_KEY.
      cbn [session snd]. rewrite lookup_insert_ne by discriminate.
      rewrite lookup_insert_eq. reflexivity.
    + right. split; [exact Hauth|]. exists username, password.
      repeat split; congruence.
Qed.

(** X13.  Logging in and out.  [login_user] makes the session
    authenticated as the given user and keeps every other key, the
    server selection among them; [requires_auth] then returns that user.
    After [logout_user] the same check rejects the session. *)
Theorem login_then_logout (request : Request) (username : string) :
  let logged_in := with_session request (snd (SessionAuth.login_user request username)) in
  let logged_out := with_session request (SessionAuth.logout_user logged_in) in
  requires_auth logged_in = inr (AStr username)
  /\ (forall k, k <> "is_authenticated" -> k <> "authenticated_user" ->
                session logged_in !! k = session request !! k)
  /\ SessionManager.get_selected_server_id logged_in
     = SessionManager.get_selected_server_id request
  /\ exists e, requires_auth logged_out = inl e.
Proof.
  cbn zeta. unfold SessionAuth.login_user, SessionAuth.logout_user, with_session,
    SessionAuth.SESSION_AUTH_KEY, SessionAuth.SESSION_USER_KEY. cbn [snd session].
  split; [|split; [|split]].
  - unfold requires_auth, SessionAuth.get_current_user, SessionAuth.is_authenticated,
      SessionAuth.SESSION_AUTH_KEY, SessionAuth.SESSION_USER_KEY. cbn [session].
    rewrite lookup_insert_ne by discriminate. rewrite !lookup_insert_eq. reflexivity.
  - intros k H1 H2. rewrite lookup_insert_ne by congruence.
    apply lookup_insert_ne. congruence.
  - unfold SessionManager.get_selected_server_id, SessionManager.SESSION_SERVER_KEY.
    cbn [session]. rewrite !lookup_insert_ne by discriminate. reflexivity.
  - unfold requires_auth, SessionAuth.is_authenticated. cbn [session].
    rewrite lookup_empty. cbn [from_option atom_truthy negb].
    destruct (Str.contains _ _); eauto.
Qed.

(** X14.  [get_current_user_hybrid] never raises.  With an
    unauthenticated session it returns the user name part of the decoded
    Basic header, and [None] when the header is missing, is not a Basic
    header, or does not decode (bad base64, bad UTF-8, no colon); with an
    authenticated session that stores a non-empty user it returns that
    user and the header is not read. *)
Theorem get_current_user_hybrid_sources (request : Request) :
  (unauthenticated request ->
   get_current_user_hybrid request
   = match basic_credentials
             (headers_get (headers request) "Authorization" EmptyString) with
     | Some (username, _) => AStr username
     | None => ANone
     end)
  /\ (atom_truthy (SessionAuth.get_current_user request) = true ->
      get_current_user_hybrid request = SessionAuth.get_current_user request).
Proof.
  split.
  - intros Hun. unfold get_current_user_hybrid, basic_credentials.
    rewrite (get_current_user_unauthenticated request Hun). cbn [atom_truthy].
    destruct (Str.startswith _ _); [|reflexivity].
    destruct (Codec.b64decode _) as [raw|]; [|reflexivity].
    destruct (Codec.decode_utf8 raw) as [decoded|]; [|reflexivity].
    destruct (Str.split_once colon decoded) as [[u p]|]; reflexivity.
  - intros Ht. unfold get_current_user_hybrid. rewrite Ht. reflexivity.
Qed.

End AuthTheorems.

Section RouteTheorems.
Import Py RegistryOkFacts.

Variable json_loads : string -> option pyval.
Variable csrf_validate : string -> bool.
Variable get_csrf_token : Request -> string * gmap string atom.

(** X15.  [login_submit] redirects only after the CSRF token has
    validated and the credentials have verified, and then the session is
    the one [login_user] writes, which [requires_auth] accepts.  In every
    other case it renders the login form with status 403 (bad token,
    whatever the credentials) or 401 (bad credentials) and does not log
    in: the session is the one [get_csrf_token] leaves. *)
Theorem login_submit_logs_in_only_when_verified
    (env : gmap string string) (request : Request)
    (username password csrf_token : string)
    (response : Response) (session' : gmap string atom) :
  login_submit csrf_validate get_csrf_token env request username password csrf_token
    = Some (response, session') ->
  match response with
  | RedirectResponse url status_code =>
      url = "/" /\ status_code = 303%Z
      /\ csrf_validate csrf_token = true
      /\ SessionAuth.verify_credentials env username password = Some true
      /\ session' = snd (SessionAuth.login_user request username)
      /\ requires_auth (with_session request session') = inr (AStr username)
  | TemplateResponse name error _ _ status_code =>
      name = "login.html.j2"
      /\ session' = snd (get_csrf_token request)
      /\ ((csrf_validate csrf_token = false /\ status_code = 403%Z)
          \/ (csrf_validate csrf_token = true
              /\ SessionAuth.verify_credentials env username password = Some false
              /\ status_code = 401%Z))
  end.
Proof.
  unfold login_submit.
  destruct (csrf_validate csrf_token) eqn:Hcsrf; cbn [negb].
  - destruct (SessionAuth.verify_credentials env username password) as [[|]|] eqn:Hv;
      [| |discriminate].
    + intros [= <- <-]. repeat split.
      unfold requires_auth, SessionAuth.get_current_user, SessionAuth.is_authenticated,
        SessionAuth.SESSION_AUTH_KEY, SessionAuth.SESSION_USER_KEY, with_session.
      cbn [session]. rewrite lookup_insert_ne by discriminate.
      rewrite !lookup_insert_eq. reflexivity.
    + destruct (get_csrf_token request) as [token s] eqn:Htok.
      intros [= <- <-]. repeat split. right. repeat split.
  - destruct (get_csrf_token request) as [token s] eqn:Htok.
    intros [= <- <-]. repeat split. left. repeat split.
Qed.

(** X16.  [handle_server_selection] answers 303, 400 or 403 and never
    500: the branch for a failed save cannot be reached, because the id
    has just been found in the registry.  It redirects exactly when the
    token validates and the id is registered, and then the session
    stores the id; otherwise the handler itself writes nothing to the
    session. *)
Theorem handle_server_selection_never_fails_to_save
    (manager : ServerConfigManager.t) (request : Request)
    (server_id csrf_token : string) :
  let '(response, session') :=
    handle_server_selection csrf_validate get_csrf_token manager request
      server_id csrf_token in
  response_status response <> 500%Z
  /\ match response with
     | RedirectResponse url status_code =>
         url = "/" /\ status_code = 303%Z
         /\ csrf_validate csrf_token = true
         /\ is_Some (ServerConfigManager.get_server manager (AStr server_id))
         /\ session' = <["selected_server_id" := AStr server_id]> (session request)
     | TemplateResponse name error _ servers status_code =>
         servers = Some (ServerConfigManager.list_servers manager)
         /\ session' = snd (get_csrf_token request)
         /\ ((csrf_validate csrf_token = false /\ status_code = 403%Z)
             \/ (csrf_validate csrf_token = true
                 /\ ServerConfigManager.get_server manager (AStr server_id) = None
                 /\ status_code = 400%Z))
     end.
Proof.
  unfold handle_server_selection.
  destruct (csrf_validate csrf_token) eqn:Hcsrf; cbn [negb].
  - destruct (ServerConfigManager.get_server manager (AStr server_id)) as [cfg|] eqn:Hget.
    + unfold SessionManager.set_selected_server_id. rewrite Hget.
      cbn [response_status]. split; [discriminate|]. repeat split. eauto.
    + destruct (get_csrf_token request) as [token s]. cbn [response_status snd].
      split; [discriminate|]. repeat split. right. repeat split.
  - destruct (get_csrf_token request) as [token s]. cbn [response_status snd].
    split; [discriminate|]. repeat split. left. repeat split.
Qed.

(** X17.  The server selection page of a constructed registry.  With
    exactly one profile it selects that profile and redirects to the
    dashboard: afterwards the profile is the current server.  With no
    profile or several it renders the list and writes nothing itself. *)
Theorem server_selection_page_selects_single_server
    (env : gmap string string) (manager : ServerConfigManager.t) (request : Request) :
  ServerConfigManager.__init__ json_loads env = Some (inr manager) ->
  match ServerConfigManager.list_servers manager with
  | [server] =>
      exists a session',
        server_selection_page get_csrf_token manager request
          = inr (RedirectResponse "/" 303, session')
        /\ as_key (ServerConfig.id server) = Some a
        /\ SessionManager.get_current_server_id manager (with_session request session') = a
        /\ ServerConfigManager.get_server manager a = Some server
        /\ SessionManager.has_server_selection manager (with_session request session')
           = true
  | servers =>
      server_selection_page get_csrf_token manager request
      = inr (TemplateResponse "server_select.html.j2" None
               (fst (get_csrf_token request)) (Some servers) 200,
             snd (get_csrf_token request))
  end.
Proof.
  intros Hinit. pose proof (init_registry_ok json_loads env manager Hinit) as Hok.
  unfold server_selection_page.
  destruct (ServerConfigManager.list_servers manager) as [|server [|server2 servers]] eqn:Hl.
  - destruct (get_csrf_token request); reflexivity.
  - destruct (registry_ok_listed manager server Hok) as (_ & a & Ha & Hget).
    { rewrite Hl. apply list_elem_of_singleton. reflexivity. }
    destruct (registry_ok_get manager a server Hok Hget) as (_ & Ht & _).
    unfold set_selected_server_id_value. rewrite Ha, Hget.
    exists a. eexists. split; [reflexivity|]. split; [reflexivity|].
    unfold SessionManager.has_server_selection, SessionManager.get_current_server_id,
      SessionManager.get_selected_server_id, with_session. cbn [session].
    rewrite lookup_insert_eq. cbn [from_option id]. rewrite Ht, Hget.
    repeat split. destruct a; try reflexivity. discriminate.
  - destruct (get_csrf_token request); reflexivity.
Qed.

Variable LiveKitClient : Type.
Variable create_livekit_client : atom -> exn + LiveKitClient.

(** X18.  [get_livekit_client_for_request] gives a client only for the
    stored id and only when that id is registered.  When no server is
    selected, or the selected one is not registered, no client is made
    and the call raises [TypeError]: the [RedirectResponse] it means to
    raise is not an exception, so no redirect is produced. *)
Theorem client_only_for_registered_selection
    (manager : ServerConfigManager.t) (request : Request) :
  let stored := SessionManager.get_selected_server_id request in
  (atom_truthy stored = false \/ ServerConfigManager.get_server manager stored = None ->
   get_livekit_client_for_request LiveKitClient create_livekit_client manager request
   = inl TypeError)
  /\ (forall client,
        get_livekit_client_for_request LiveKitClient create_livekit_client manager request
        = inr client ->
        is_Some (ServerConfigManager.get_server manager stored)
        /\ create_livekit_client stored = inr client).
Proof.
  cbn zeta. unfold get_livekit_client_for_request, SessionManager.get_current_server_id.
  destruct (atom_truthy (SessionManager.get_selected_server_id request)) eqn:Ht.
  - destruct (ServerConfigManager.get_server manager _) as [cfg|] eqn:Hget.
    + rewrite Ht. cbn [negb]. split.
      * intros [H|H]; discriminate.
      * intros client Hc. split; [eauto | exact Hc].
    + cbn [atom_truthy negb]. split; [reflexivity | discriminate].
  - cbn [atom_truthy negb]. split; [reflexivity | discriminate].
Qed.

Variable client_sip_enabled : atom -> option pyval.
Variable csrf_token_of : Request -> string.

(** X19.  [get_base_template_context] tolerates a missing selection.
    It always lists all the profiles.  Without a current server it
    reports no server, no profile and [sip_enabled = False], without
    asking for a client; with a current server it reports the profile
    registered under that id, and [sip_enabled] is [False] when the
    client cannot be made. *)
Theorem template_context_tolerates_missing_selection
    (manager : ServerConfigManager.t) (request : Request) :
  let ctx := get_base_template_context client_sip_enabled csrf_token_of manager request in
  let current := SessionManager.get_current_server_id manager request in
  servers ctx = ServerConfigManager.list_servers manager
  /\ current_server_id ctx = current
  /\ (current = ANone ->
      current_server_config ctx = None /\ ctx_sip_enabled ctx = VAtom (ABool false))
  /\ (current <> ANone ->
      is_Some (current_server_config ctx)
      /\ current_server_config ctx = ServerConfigManager.get_server manager current
      /\ ctx_sip_enabled ctx
         = default (VAtom (ABool false)) (client_sip_enabled current)).
Proof.
  cbn zeta. unfold get_base_template_context.
  cbn [servers current_server_id current_server_config ctx_sip_enabled].
  split; [reflexivity|]. split; [reflexivity|].
  unfold SessionManager.get_current_server_id.
  destruct (atom_truthy (SessionManager.get_selected_server_id request)) eqn:Ht.
  - destruct (ServerConfigManager.get_server manager _) as [cfg|] eqn:Hget.
    + rewrite Ht, Hget. split; [intros H; rewrite H in Ht; discriminate|].
      intros _. split; [eauto|]. split; reflexivity.
    + cbn [atom_truthy]. split; [split; reflexivity | congruence].
  - cbn [atom_truthy]. split; [split; reflexivity | congruence].
Qed.

End RouteTheorems.

(** ** Text substitution *)

Module ReplaceFacts.

Lemma contains_tail (sub : string) (c : ascii) (s : string) :
  Str.contains sub (String c s) = false ->
  String.prefix sub (String c s) = false /\ Str.contains sub s = false.
Proof.
  cbn [Str.contains]. destruct (String.prefix sub (String c s)); [discriminate|].
  tauto.
Qed.

(** Where [old] does not occur there is nothing to replace. *)
Lemma replace_absent (old new s : string) :
  Str.contains old s = false -> replace old new s = s.
Proof.
  unfold replace. induction s as [|c s IH]; intros H; [reflexivity|].
  destruct (contains_tail _ _ _ H) as [Hp Hc].
  cbn [replace_from]. rewrite Hp, (IH Hc). reflexivity.
Qed.

Lemma remove_absent (old s : string) :
  Str.contains old s = false -> Str.remove old s = s.
Proof.
  unfold Str.remove. induction s as [|c s IH]; intros H; [reflexivity|].
  destruct (contains_tail _ _ _ H) as [Hp Hc].
  cbn [Str.remove_from]. rewrite Hp, (IH Hc). reflexivity.
Qed.

Lemma append_empty_r (s : string) : s +:+ EmptyString = s.
Proof.
  induction s as [|c s IH]; [reflexivity|].
  change (String c (s +:+ EmptyString) = String c s). rewrite IH. reflexivity.
Qed.

End ReplaceFacts.

Section EgressTheorems.
Import ReplaceFacts.

(** X20.  The file name of a recording.  A template without the
    placeholders is used as it is; without [{room}] the room name plays
    no part; and because [{room}] is filled in first, a [{time}] that the
    room name brings in is expanded as well. *)
Theorem egress_filename_placeholders (output_filename room_name now : string) :
  (Str.contains "{room}" output_filename = false ->
   egress_filename output_filename room_name now
   = replace "{time}" now output_filename)
  /\ (Str.contains "{room}" output_filename = false ->
      Str.contains "{time}" output_filename = false ->
      egress_filename output_filename room_name now = output_filename)
  /\ egress_filename "{room}" room_name now = replace "{time}" now room_name.
Proof.
  unfold egress_filename. split; [|split].
  - intros Hr. rewrite (replace_absent _ _ _ Hr). reflexivity.
  - intros Hr Ht. rewrite (replace_absent _ _ _ Hr). apply replace_absent. exact Ht.
  - f_equal. unfold replace. cbn. apply append_empty_r.
Qed.

End EgressTheorems.

(** ** Encoding and decoding a Basic header *)

Module Base64Facts.
Import Codec.

Lemma below_In (n : nat) (v : N) : (v < N.of_nat n)%N -> In v (below n).
Proof.
  intros H. unfold below. apply in_map_iff. exists (N.to_nat v).
  split; [apply N2Nat.id|]. apply in_seq. lia.
Qed.

Lemma forall_below (n : nat) (P : N -> bool) :
  forallb P (below n) = true -> forall v, (v < N.of_nat n)%N -> P v = true.
Proof. intros H v Hv. rewrite forallb_forall in H. apply H, below_In, Hv. Qed.

Lemma digits_ok : forallb digit_ok (below 64) = true.
Proof. vm_compute. reflexivity. Qed.

Lemma digit_facts (v : N) :
  (v < 64)%N ->
  table_a2b_base64 (b64_digit v) = Some v
  /\ Ascii.eqb (b64_digit v) BASE64_PAD = false
  /\ (N_of_ascii (b64_digit v) <? 128)%N = true
  /\ (N_of_ascii (b64_digit v) =? 32)%N = false.
Proof.
  intros Hv. pose proof (forall_below 64 digit_ok digits_ok v Hv) as H.
  unfold digit_ok in H.
  apply andb_prop in H as [H H4]. apply andb_prop in H as [H H3].
  apply andb_prop in H as [H1 H2].
  destruct (table_a2b_base64 (b64_digit v)) as [w|]; [|discriminate].
  apply N.eqb_eq in H1. subst w.
  apply negb_true_iff in H2, H4. tauto.
Qed.

(** Decoding one digit, in each position of a quad. *)
Lemma a2b_digit (v : N) (rest : string) (quad_pos : nat) (leftchar : N) (pads : nat) :
  (v < 64)%N ->
  a2b_base64 (String (b64_digit v) rest) quad_pos leftchar pads
  = match quad_pos with
    | 0%nat => a2b_base64 rest 1 v 0
    | 1%nat =>
        String (ascii_of_N (N.lor (N.shiftl leftchar 2) (N.shiftr v 4)))
          <$> a2b_base64 rest 2 (N.land v 15) 0
    | 2%nat =>
        String (ascii_of_N (N.lor (N.shiftl leftchar 4) (N.shiftr v 2)))
          <$> a2b_base64 rest 3 (N.land v 3) 0
    | _ => String (ascii_of_N (N.lor (N.shiftl leftchar 6) v)) <$> a2b_base64 rest 0 0 0
    end.
Proof.
  intros Hv. destruct (digit_facts v Hv) as (Ht & Hp & _ & _).
  cbn [a2b_base64]. rewrite Hp, Ht. reflexivity.
Qed.

Lemma quads_ok :
  forallb (fun n => forallb (quad_ok n) (below 256)) (below 256) = true.
Proof. vm_compute. reflexivity. Qed.

Lemma quad_facts (x y : ascii) : quad_ok (N_of_ascii x) (N_of_ascii y) = true.
Proof.
  pose proof (forall_below 256 _ quads_ok (N_of_ascii x) (N_ascii_bounded x)) as H.
  cbv beta in H.
  exact (forall_below 256 _ H (N_of_ascii y) (N_ascii_bounded y)).
Qed.


Lemma quad_props (x y : ascii) :
  let n := N_of_ascii x in
  let m := N_of_ascii y in
  let v0 := N.shiftr n 2 in
  let v1 := N.lor (N.shiftl (N.land n 3) 4) (N.shiftr m 4) in
  let w2 := N.lor (N.shiftl (N.land n 15) 2) (N.shiftr m 6) in
  ((v0 < 64)%N /\ (v1 < 64)%N /\ (N.shiftl (N.land m 15) 2 < 64)%N
   /\ (N.shiftl (N.land n 3) 4 < 64)%N)
  /\ (N.lor (N.shiftl v0 2) (N.shiftr v1 4) = n
      /\ N.lor (N.shiftl v0 2) (N.shiftr (N.shiftl (N.land n 3) 4) 4) = n
      /\ N.land v1 15 = N.shiftr m 4)
  /\ ((w2 < 64)%N
      /\ N.lor (N.shiftl (N.shiftr n 4) 4) (N.shiftr w2 2) = n
      /\ N.land w2 3 = N.shiftr m 6
      /\ N.lor (N.shiftl (N.shiftr m 6) 6) (N.land m 63) = m
      /\ (N.land m 63 < 64)%N
      /\ N.lor (N.shiftl (N.shiftr n 4) 4) (N.shiftr (N.shiftl (N.land n 15) 2) 2) = n).
Proof.
  cbv zeta. pose proof (quad_facts x y) as H. unfold quad_ok in H. cbv zeta in H.
  repeat match goal with
         | H : _ && _ = true |- _ => apply andb_prop in H as [? ?]
         end.
  repeat match goal with
         | H : (_ <? _)%N = true |- _ => apply N.ltb_lt in H
         | H : (_ =? _)%N = true |- _ => apply N.eqb_eq in H
         end.
  repeat split; assumption.
Qed.

(** Induction on a byte string three bytes at a time. *)
Lemma string_ind3 (P : string -> Prop) :
  P EmptyString ->
  (forall x, P (String x EmptyString)) ->
  (forall x y, P (String x (String y EmptyString))) ->
  (forall x y z r, P r -> P (String x (String y (String z r)))) ->
  forall s, P s.
Proof.
  intros H0 H1 H2 H3. fix IH 1. intros s.
  destruct s as [|x [|y [|z r]]]; [exact H0 | apply H1 | apply H2 |].
  apply H3. apply IH.
Qed.

(** Decoding undoes encoding. *)
Lemma a2b_b64encode (b : string) :
  forall leftchar, a2b_base64 (b64encode b) 0 leftchar 0 = Some b.
Proof.
  induction b as [|x|x y|x y z r IH] using string_ind3; intros leftchar.
  - reflexivity.
  - destruct (quad_props x x) as ((H0 & _ & _ & H1) & (_ & E & _) & _).
    cbn [b64encode]. rewrite (a2b_digit _ _ _ _ _ H0), (a2b_digit _ _ _ _ _ H1).
    rewrite E, ascii_N_embedding. reflexivity.
  - destruct (quad_props x y) as ((H0 & H1 & H2 & _) & (E1 & _ & E2) & _).
    destruct (quad_props y y) as (_ & _ & (_ & _ & _ & _ & _ & E3)).
    cbn [b64encode].
    rewrite (a2b_digit _ _ _ _ _ H0), (a2b_digit _ _ _ _ _ H1), (a2b_digit _ _ _ _ _ H2).
    rewrite E1, E2, E3, !ascii_N_embedding. reflexivity.
  - destruct (quad_props x y) as ((H0 & H1 & _ & _) & (E1 & _ & E2) & _).
    destruct (quad_props y z) as (_ & _ & (H2 & E3 & E4 & E5 & H3 & _)).
    cbn [b64encode].
    rewrite (a2b_digit _ _ _ _ _ H0), (a2b_digit _ _ _ _ _ H1),
      (a2b_digit _ _ _ _ _ H2), (a2b_digit _ _ _ _ _ H3).
    rewrite E1, E2, E3, E4, E5, !ascii_N_embedding, IH. reflexivity.
Qed.

(** An encoded text is ASCII and has no space. *)
Lemma b64encode_chars (b : string) :
  is_ascii (b64encode b) = true
  /\ Forall (fun c => (N_of_ascii c =? 32)%N = false)
       (list_ascii_of_string (b64encode b)).
Proof.
  induction b as [|x|x y|x y z r [IH1 IH2]] using string_ind3.
  - split; [reflexivity | constructor].
  - destruct (quad_props x x) as ((H0 & _ & _ & H1) & _).
    destruct (digit_facts _ H0) as (_ & _ & A0 & S0).
    destruct (digit_facts _ H1) as (_ & _ & A1 & S1).
    cbn [b64encode is_ascii list_ascii_of_string]. rewrite A0, A1.
    split; [reflexivity | repeat constructor; assumption].
  - destruct (quad_props x y) as ((H0 & H1 & H2 & _) & _).
    destruct (digit_facts _ H0) as (_ & _ & A0 & S0).
    destruct (digit_facts _ H1) as (_ & _ & A1 & S1).
    destruct (digit_facts _ H2) as (_ & _ & A2 & S2).
    cbn [b64encode is_ascii list_ascii_of_string]. rewrite A0, A1, A2.
    split; [reflexivity | repeat constructor; assumption].
  - destruct (quad_props x y) as ((H0 & H1 & _ & _) & _).
    destruct (quad_props y z) as (_ & _ & (H2 & _ & _ & _ & H3 & _)).
    destruct (digit_facts _ H0) as (_ & _ & A0 & S0).
    destruct (digit_facts _ H1) as (_ & _ & A1 & S1).
    destruct (digit_facts _ H2) as (_ & _ & A2 & S2).
    destruct (digit_facts _ H3) as (_ & _ & A3 & S3).
    cbn [b64encode is_ascii list_ascii_of_string]. rewrite A0, A1, A2, A3, IH1.
    split; [reflexivity | repeat (constructor; [assumption|]); exact IH2].
Qed.

Lemma b64decode_b64encode (b : string) : b64decode (b64encode b) = Some b.
Proof.
  unfold b64decode. rewrite (proj1 (b64encode_chars b)). apply a2b_b64encode.
Qed.

Lemma prefix_basic_space (t : string) :
  String.prefix "Basic " t = true ->
  Exists (fun c => (N_of_ascii c =? 32)%N = true) (list_ascii_of_string t).
Proof.
  intros H.
  destruct t as [|c0 [|c1 [|c2 [|c3 [|c4 [|c5 t]]]]]]; cbn [String.prefix] in H;
    repeat match type of H with
           | context [ascii_dec ?a ?b] => destruct (ascii_dec a b); try discriminate H
           end; try discriminate H.
  subst. cbn [list_ascii_of_string].
  do 5 apply Exists_cons_tl. apply Exists_cons_hd. reflexivity.
Qed.

Lemma no_space_no_basic (t : string) :
  Forall (fun c => (N_of_ascii c =? 32)%N = false) (list_ascii_of_string t) ->
  Str.contains "Basic " t = false.
Proof.
  induction t as [|c t IH]; intros H; [reflexivity|].
  cbn [Str.contains].
  destruct (String.prefix "Basic " (String c t)) eqn:Hp.
  - apply prefix_basic_space in Hp. apply Exists_exists in Hp as (a & Ha & Hs).
    rewrite Forall_forall in H. rewrite (H a Ha) in Hs. discriminate.
  - apply IH. cbn [list_ascii_of_string] in H. inversion H; assumption.
Qed.

(** *** UTF-8 and the colon *)

Lemma utf8_valid_app (a b : string) :
  utf8_valid a = true -> utf8_valid b = true -> utf8_valid (a +:+ b) = true.
Proof.
  intros Ha Hb. revert Ha.
  assert (Hlen : forall n a, String.length a <= n ->
                   utf8_valid a = true -> utf8_valid (a +:+ b) = true).
  { clear a. induction n as [|n IH]; intros a Hn Ha.
    - destruct a; [exact Hb | simpl in Hn; lia].
    - destruct a as [|b0 r0]; [exact Hb|].
      change (String b0 r0 +:+ b) with (String b0 (r0 +:+ b)).
      cbn [utf8_valid String.length] in *.
      destruct (N_of_ascii b0 <? 128)%N; [apply IH; [lia | exact Ha]|].
      destruct (in_range 194 223 b0).
      { destruct r0 as [|b1 r1]; [discriminate|].
        change (String b1 r1 +:+ b) with (String b1 (r1 +:+ b)).
        cbn [String.length] in Hn.
        apply andb_prop in Ha as [H1 Ha]. rewrite H1. apply IH; [lia | exact Ha]. }
      destruct (in_range 224 239 b0).
      { destruct r0 as [|b1 [|b2 r2]]; try discriminate.
        change (String b1 (String b2 r2) +:+ b) with (String b1 (String b2 (r2 +:+ b))).
        cbn [String.length] in Hn.
        apply andb_prop in Ha as [H1 Ha]. rewrite H1. apply IH; [lia | exact Ha]. }
      destruct (in_range 240 244 b0); [|discriminate].
      destruct r0 as [|b1 [|b2 [|b3 r3]]]; try discriminate.
      change (String b1 (String b2 (String b3 r3)) +:+ b)
        with (String b1 (String b2 (String b3 (r3 +:+ b)))).
      cbn [String.length] in Hn.
      apply andb_prop in Ha as [H1 Ha]. rewrite H1. apply IH; [lia | exact Ha]. }
  apply (Hlen (String.length a)). lia.
Qed.

Lemma split_once_app (u p : string) :
  Str.split_once colon u = None ->
  Str.split_once colon (u +:+ String colon p) = Some (u, p).
Proof.
  induction u as [|c u IH]; intros H.
  - change (EmptyString +:+ String colon p) with (String colon p).
    cbn [Str.split_once]. rewrite Ascii.eqb_refl. reflexivity.
  - change (String c u +:+ String colon p) with (String c (u +:+ String colon p)).
    cbn [Str.split_once] in *. destruct (Ascii.eqb c colon); [discriminate|].
    destruct (Str.split_once colon u) as [[a b']|]; [discriminate|].
    rewrite (IH eq_refl). reflexivity.
Qed.

Lemma basic_prefix (t : string) :
  Str.startswith ("Basic " +:+ t) "Basic " = true
  /\ Str.remove "Basic " ("Basic " +:+ t) = Str.remove "Basic " t.
Proof. destruct t; split; reflexivity. Qed.

(** The credentials of the header a client builds are the ones it put
    in. *)
Lemma basic_credentials_header (username password : string) :
  utf8_valid username = true -> utf8_valid password = true ->
  Str.split_once colon username = None ->
  basic_credentials (basic_header username password) = Some (username, password).
Proof.
  intros Hu Hp Hc. unfold basic_credentials, basic_header.
  destruct (basic_prefix (b64encode (username +:+ ":" +:+ password))) as [-> ->].
  rewrite (ReplaceFacts.remove_absent _ _
             (no_space_no_basic _ (proj2 (b64encode_chars _)))).
  rewrite b64decode_b64encode. unfold decode_utf8.
  change (":" +:+ password) with (String colon password).
  rewrite (utf8_valid_app username (String colon password) Hu);
    [exact (split_once_app username password Hc)|].
  cbn [utf8_valid]. exact Hp.
Qed.

End Base64Facts.

Section BasicHeaderTheorems.
Import Base64Facts.

(** X21.  Every header a client builds is understood.  For a user name
    without colon and a password, both UTF-8 text, the header [Basic]
    followed by the base64 of [username:password] decodes to exactly
    that user name and password (the password may contain colons); so,
    when they verify, [requires_admin_hybrid] accepts the request and
    logs the session in. *)
Theorem client_basic_header_accepted
    (env : gmap string string) (request : Request) (username password : string) :
  Codec.utf8_valid username = true ->
  Codec.utf8_valid password = true ->
  Str.split_once colon username = None ->
  basic_credentials (basic_header username password) = Some (username, password)
  /\ (unauthenticated request ->
      headers_get (headers request) "Authorization" EmptyString
        = basic_header username password ->
      SessionAuth.verify_credentials env username password = Some true ->
      requires_admin_hybrid env request
      = (inr (AStr username), snd (SessionAuth.login_user request username))).
Proof.
  intros Hu Hp Hc.
  pose proof (basic_credentials_header username password Hu Hp Hc) as Hcred.
  split; [exact Hcred|]. intros Hun Hh Hv.
  rewrite (requires_admin_hybrid_basic env request Hun), Hh, Hcred, Hv. reflexivity.
Qed.

End BasicHeaderTheorems.

Module ScanFacts.
Import Py ServerConfigManager DictFacts LoaderFacts.

(** The scan raises at the first group whose name is empty, if the groups
    before it are usable. *)
Lemma load_numbered_abort (env : gmap string string) (k : nat) :
  forall (fuel i : nat) (self : t),
    k < fuel ->
    (forall j, i <= j < i + k -> group_set env j = true /\ name_usable env j = true) ->
    group_set env (i + k) = true ->
    name_usable env (i + k) = false ->
    load_numbered fuel env i self = Some (inl (ValueError "Server name is required")).
Proof.
  induction k as [|k IH]; intros fuel i self Hfuel Hgroups Hg Hn.
  - destruct fuel as [|fuel]; [lia|]. rewrite Nat.add_0_r in Hg, Hn.
    exact (load_numbered_empty_name _ _ _ _ Hg Hn).
  - destruct fuel as [|fuel]; [lia|].
    destruct (Hgroups i ltac:(lia)) as [Hgi Hni].
    rewrite (load_numbered_step _ _ _ _ Hgi Hni).
    apply IH; [lia | intros j Hj; apply Hgroups; lia | |];
      replace (S i + k) with (i + S k) by lia; assumption.
Qed.

End ScanFacts.

Section ScanTheorems.
Import Py ServerConfigManager DictFacts LoaderFacts ScanFacts.

Variable json_loads : string -> option pyval.

(** X22.  The registry built from the variables alone.  Without
    [LIVEKIT_SERVERS], when the numbered groups 1 to [k] are set with
    usable names and group [k + 1] is the first gap ([k] may be 0), the
    profiles are, in this order, the primary profile if its three
    variables are set, then [server_1] to [server_k], each with the
    values of its own variables; the default is the primary profile if
    there is one and [server_1] otherwise; with neither, construction
    raises the missing-configuration error. *)
Theorem registry_from_variables (env : gmap string string) (k : nat) :
  set (env !! "LIVEKIT_SERVERS") = false ->
  (forall j, 1 <= j <= k -> group_set env j = true /\ name_usable env j = true) ->
  group_set env (S k) = false ->
  let numbered := map (numbered_profile env) (seq 1 k) in
  match ServerConfigManager.__init__ json_loads env with
  | Some (inr m) =>
      list_servers m
      = ((if primary_set env then [primary_profile env] else []) ++ numbered)%list
      /\ get_default_server m
         = (if primary_set env then Some (primary_profile env)
            else head numbered)
      /\ (primary_set env = true \/ 0 < k)
  | Some (inl e) => e = no_configuration /\ primary_set env = false /\ k = 0
  | None => False
  end.
Proof.
  intros Hjson Hgroups Hgap. cbv zeta.
  rewrite (init_from_variables json_loads env k Hjson Hgroups Hgap).
  assert (Hl : map snd (numbered_entries env 1 k) = map (numbered_profile env) (seq 1 k)).
  { unfold numbered_entries. rewrite map_map. reflexivity. }
  destruct (primary_set env).
  - unfold list_servers, get_default_server.
    cbn [_servers _default_server_id map snd atom_truthy Str.truthy dict_get app].
    rewrite Hl. repeat split. left. reflexivity.
  - destruct k as [|k]; [repeat split|].
    unfold list_servers, get_default_server. cbn [_servers _default_server_id app].
    rewrite Hl. split; [reflexivity|]. split; [|right; lia].
    unfold numbered_entries. cbn [seq map head dict_get atom_truthy].
    rewrite atom_eqb_refl. reflexivity.
Qed.

(** X23.  An empty [LIVEKIT_NAME_n] is fatal.  Without [LIVEKIT_SERVERS],
    when the groups 1 to [n] are set, the names before [n] are usable and
    [LIVEKIT_NAME_n] is set to the empty string, construction raises
    [ValueError] for the missing server name, whatever else is set: the
    profiles stored before are lost with it. *)
Theorem empty_numbered_name_is_fatal (env : gmap string string) (n : nat) :
  set (env !! "LIVEKIT_SERVERS") = false ->
  1 <= n ->
  (forall j, 1 <= j <= n -> group_set env j = true) ->
  (forall j, 1 <= j < n -> name_usable env j = true) ->
  env !! name_var n = Some EmptyString ->
  ServerConfigManager.__init__ json_loads env
  = Some (inl (ValueError "Server name is required")).
Proof.
  intros Hjson Hn Hgroups Hnames Hempty.
  unfold __init__, _load_configurations. rewrite (load_json_unset _ _ _ Hjson).
  assert (Hfuel : n - 1 < S (size env)).
  { assert (n <= size env); [|lia]. apply (url_vars_bounded env 1 n).
    intros j Hj. specialize (Hgroups j ltac:(lia)).
    unfold group_set in Hgroups. apply andb_prop in Hgroups as [Hg _].
    apply andb_prop in Hg as [Hu _]. exact (set_is_Some _ Hu). }
  assert (Habort : forall self,
            load_numbered (S (size env)) env 1 self
            = Some (inl (ValueError "Server name is required"))).
  { intros self. apply (load_numbered_abort env (n - 1)); [exact Hfuel | | |].
    - intros j Hj. split; [apply Hgroups | apply Hnames]; lia.
    - replace (1 + (n - 1)) with n by lia. apply Hgroups. lia.
    - replace (1 + (n - 1)) with n by lia. unfold name_usable. rewrite Hempty.
      reflexivity. }
  destruct (primary_set env) eqn:Hp.
  - rewrite (load_primary_set _ _ Hp), Habort. reflexivity.
  - rewrite (load_primary_unset _ _ Hp), Habort. reflexivity.
Qed.

End ScanTheorems.

(** ** The further properties at sample inputs *)

Lemma merged_registry_constructed :
  ServerConfigManager.__init__ JsonLite.loads Sample.primary_and_numbered
  = Some (inr Fixture.merged_registry).
Proof. compute_now. Qed.

Lemma constructed_registry_is_consistent_witness :
  (forall cfg, cfg ∈ list_servers Fixture.merged_registry ->
     ServerConfig.__post_init__ cfg = inr tt
     /\ exists a, Py.as_key (ServerConfig.id cfg) = Some a
                  /\ get_server Fixture.merged_registry a = Some cfg)
  /\ (forall a cfg, get_server Fixture.merged_registry a = Some cfg ->
        cfg ∈ list_servers Fixture.merged_registry
        /\ exists a', Py.as_key (ServerConfig.id cfg) = Some a'
                      /\ Py.atom_eqb a a' = true).
Proof.
  exact (constructed_registry_is_consistent JsonLite.loads
           Sample.primary_and_numbered Fixture.merged_registry
           merged_registry_constructed).
Defined.

Lemma constructed_registry_has_default_witness :
  (list_servers Fixture.merged_registry = []
   /\ get_default_server Fixture.merged_registry = None)
  \/ (exists cfg, get_default_server Fixture.merged_registry = Some cfg
                  /\ cfg ∈ list_servers Fixture.merged_registry).
Proof.
  exact (constructed_registry_has_default JsonLite.loads
           Sample.primary_and_numbered Fixture.merged_registry
           merged_registry_constructed).
Defined.



Lemma registry_built_once_witness :
  ServerConfigManager.__init__ JsonLite.loads Sample.primary_and_numbered
    = Some (inr Fixture.merged_registry)
  /\ forall env',
       get_server_config_manager JsonLite.loads env' (Some Fixture.merged_registry)
       = Some (inr Fixture.merged_registry, Some Fixture.merged_registry).
Proof.
  refine (registry_built_once JsonLite.loads Sample.primary_and_numbered
            (inr Fixture.merged_registry) (Some Fixture.merged_registry) _).
  compute_now.
Defined.

Lemma set_default_server_switches_witness :
  set_default_server Fixture.merged_registry (AStr "eu")
    = (Fixture.merged_registry, false)
  /\ exists m',
       set_default_server Fixture.merged_registry (AStr "server_1") = (m', true)
       /\ list_servers m' = list_servers Fixture.merged_registry
       /\ get_default_server m'
          = Some (numbered_profile Sample.primary_and_numbered 1)
       /\ forall a, get_server m' a = get_server Fixture.merged_registry a.
Proof.
  pose proof (set_default_server_switches JsonLite.loads Sample.primary_and_numbered
                Fixture.merged_registry) as H.
  split.
  - refine (proj1 (H (AStr "eu") merged_registry_constructed) _). compute_now.
  - refine (proj2 (H (AStr "server_1") merged_registry_constructed) _ _). compute_now.
Defined.

Lemma get_server_config_resolves_witness :
  match get_server_config Fixture.merged_registry (Some "server_1") with
  | inr cfg =>
      cfg ∈ list_servers Fixture.merged_registry
      /\ (set (Some "server_1") = true -> ServerConfig.id cfg = VAtom (AStr "server_1"))
      /\ (set (Some "server_1") = false ->
          get_default_server Fixture.merged_registry = Some cfg)
  | inl e =>
      (set (Some "server_1") = true
       /\ get_server Fixture.merged_registry (AStr "server_1") = None
       /\ e = ValueError ("Server configuration not found: " +:+ "server_1"))
      \/ (set (Some "server_1") = false /\ list_servers Fixture.merged_registry = []
          /\ e = ValueError "No default server configuration available")
  end.
Proof.
  exact (get_server_config_resolves JsonLite.loads Sample.primary_and_numbered
           Fixture.merged_registry (Some "server_1") merged_registry_constructed).
Defined.

Lemma selection_round_trip_witness :
  exists session',
    SessionManager.set_selected_server_id Fixture.merged_registry Sample.api_request
      "server_1" = (true, session')
    /\ SessionManager.get_current_server_id Fixture.merged_registry
         (with_session Sample.api_request session') = AStr "server_1"
    /\ SessionManager.has_server_selection Fixture.merged_registry
         (with_session Sample.api_request session') = true.
Proof.
  refine (selection_round_trip JsonLite.loads Sample.primary_and_numbered
            Fixture.merged_registry Sample.api_request "server_1"
            merged_registry_constructed _).
  vm_compute. eauto.
Defined.

Lemma clear_server_selection_only_selection_witness :
  SessionManager.clear_server_selection (Fixture.selected "eu")
    !! "selected_server_id" = None
  /\ SessionManager.clear_server_selection (Fixture.selected "eu")
       !! "is_authenticated" = session (Fixture.selected "eu") !! "is_authenticated".
Proof.
  pose proof (clear_server_selection_only_selection (Fixture.selected "eu")) as H.
  cbv zeta in H. destruct H as (H1 & H2 & _).
  split; [exact H1|]. apply H2. discriminate.
Defined.

Lemma verify_credentials_exact_witness :
  SessionAuth.verify_credentials ∅ "admin" "changeme" = Some true.
Proof.
  apply (proj2 (verify_credentials_exact ∅ "admin" "changeme")).
  repeat split; compute_now.
Defined.

Lemma hybrid_extends_session_auth_witness :
  let request :=
    mkRequest [("authorization", Sample.bad_header)]
      (snd (SessionAuth.login_user Sample.api_request "admin")) in
  requires_admin_hybrid ∅ request = (inr (AStr "admin"), session request).
Proof.
  cbv zeta.
  refine (hybrid_extends_session_auth ∅ _ (AStr "admin") _). compute_now.
Defined.

Lemma hybrid_accepts_only_authenticated_witness :
  let request := Sample.basic_request Sample.good_header in
  let session' := snd (SessionAuth.login_user request "admin") in
  Py.atom_truthy (SessionAuth.is_authenticated (with_session request session')) = true
  /\ ((Py.atom_truthy (SessionAuth.is_authenticated request) = true
       /\ session' = session request
       /\ AStr "admin" = SessionAuth.get_current_user request)
      \/ (unauthenticated request
          /\ exists username password,
               basic_credentials
                 (headers_get (headers request) "Authorization" EmptyString)
               = Some (username, password)
               /\ SessionAuth.verify_credentials ∅ username password = Some true
               /\ AStr "admin" = AStr username
               /\ session' = snd (SessionAuth.login_user request username))).
Proof.
  cbv zeta.
  refine (hybrid_accepts_only_authenticated ∅ _ (AStr "admin") _ _). compute_now.
Defined.

Lemma login_then_logout_witness :
  let logged_in :=
    with_session (Fixture.selected "eu")
      (snd (SessionAuth.login_user (Fixture.selected "eu") "admin")) in
  requires_auth logged_in = inr (AStr "admin")
  /\ session logged_in !! "selected_server_id" = Some (AStr "eu").
Proof.
  pose proof (login_then_logout (Fixture.selected "eu") "admin") as H.
  cbv zeta in *. destruct H as (H1 & H2 & _).
  split; [exact H1|]. rewrite H2 by discriminate. compute_now.
Defined.

Lemma get_current_user_hybrid_sources_witness :
  get_current_user_hybrid Sample.api_request = ANone
  /\ get_current_user_hybrid (Sample.basic_request Sample.bad_header) = AStr "admin".
Proof.
  split.
  - rewrite (proj1 (get_current_user_hybrid_sources Sample.api_request));
      compute_now.
  - rewrite (proj1 (get_current_user_hybrid_sources
                      (Sample.basic_request Sample.bad_header))); compute_now.
Defined.

Lemma login_submit_logs_in_only_when_verified_witness :
  Fixture.csrf_validate "token" = true
  /\ SessionAuth.verify_credentials ∅ "admin" "changeme" = Some true
  /\ requires_auth
       (with_session Sample.api_request
          (snd (SessionAuth.login_user Sample.api_request "admin")))
     = inr (AStr "admin").
Proof.
  assert (H0 : login_submit Fixture.csrf_validate Fixture.get_csrf_token ∅
                 Sample.api_request "admin" "changeme" "token"
               = Some (RedirectResponse "/" 303,
                       snd (SessionAuth.login_user Sample.api_request "admin")))
    by reflexivity.
  pose proof (login_submit_logs_in_only_when_verified _ _ _ _ _ _ _ _ _ H0) as H.
  cbv iota beta in H. tauto.
Defined.

Lemma server_selection_page_selects_single_server_witness :
  exists a session',
    server_selection_page Fixture.get_csrf_token Sample.registry Sample.api_request
      = inr (RedirectResponse "/" 303, session')
    /\ Py.as_key (VAtom (AStr "eu")) = Some a
    /\ SessionManager.get_current_server_id Sample.registry
         (with_session Sample.api_request session') = a
    /\ get_server Sample.registry a
       = Some (ServerConfig.mk (AStr "eu") (AStr "Europe") (AStr "wss://lk.example.org")
                 (AStr "key") (AStr "secret") (ABool false) ANone)
    /\ SessionManager.has_server_selection Sample.registry
         (with_session Sample.api_request session') = true.
Proof.
  exact (server_selection_page_selects_single_server JsonLite.loads
           Fixture.get_csrf_token (Sample.json_only Fixture.second_entry_bad)
           Sample.registry Sample.api_request ltac:(compute_now)).
Defined.

Lemma client_only_for_registered_selection_witness :
  get_livekit_client_for_request atom Fixture.create_livekit_client
    Fixture.merged_registry (Fixture.selected "eu") = inl TypeError
  /\ is_Some (get_server Fixture.merged_registry (AStr "server_1")).
Proof.
  pose proof (client_only_for_registered_selection atom Fixture.create_livekit_client
                Fixture.merged_registry) as H.
  split.
  - refine (proj1 (H (Fixture.selected "eu")) _). right. compute_now.
  - refine (proj1 (proj2 (H (Fixture.selected "server_1")) (AStr "server_1") _)).
    compute_now.
Defined.

Lemma template_context_tolerates_missing_selection_witness :
  let ctx :=
    get_base_template_context (fun _ => Some (VAtom (ABool true))) (fun _ => "token")
      Fixture.merged_registry (Fixture.selected "eu") in
  current_server_config ctx = None /\ ctx_sip_enabled ctx = VAtom (ABool false).
Proof.
  cbv zeta.
  refine (proj1 (proj2 (proj2 (template_context_tolerates_missing_selection
                                 (fun _ => Some (VAtom (ABool true))) (fun _ => "token")
                                 Fixture.merged_registry (Fixture.selected "eu")))) _).
  compute_now.
Defined.

Lemma egress_filename_placeholders_witness :
  egress_filename "recording.mp4" "lobby" "20250101_120000" = "recording.mp4".
Proof.
  refine (proj1 (proj2 (egress_filename_placeholders
                          "recording.mp4" "lobby" "20250101_120000")) _ _);
    compute_now.
Defined.

Lemma client_basic_header_accepted_witness :
  basic_header "admin" "changeme" = Sample.good_header
  /\ basic_credentials (basic_header "admin" "pass:word") = Some ("admin", "pass:word")
  /\ requires_admin_hybrid ∅ (Sample.basic_request Sample.good_header)
     = (inr (AStr "admin"),
        snd (SessionAuth.login_user (Sample.basic_request Sample.good_header) "admin")).
Proof.
  split; [compute_now|]. split.
  - refine (proj1 (client_basic_header_accepted ∅ Sample.api_request
                     "admin" "pass:word" _ _ _)); compute_now.
  - refine (proj2 (client_basic_header_accepted
                     ∅ (Sample.basic_request Sample.good_header)
                     "admin" "changeme" _ _ _) _ _ _); compute_now.
Defined.

Lemma registry_from_variables_witness :
  match ServerConfigManager.__init__ JsonLite.loads Sample.three_groups with
  | Some (inr m) =>
      list_servers m
      = ((if primary_set Sample.three_groups
          then [primary_profile Sample.three_groups] else [])
         ++ map (numbered_profile Sample.three_groups) (seq 1 3))%list
      /\ get_default_server m
         = (if primary_set Sample.three_groups
            then Some (primary_profile Sample.three_groups)
            else head (map (numbered_profile Sample.three_groups) (seq 1 3)))
      /\ (primary_set Sample.three_groups = true \/ 0 < 3)
  | Some (inl e) =>
      e = no_configuration /\ primary_set Sample.three_groups = false /\ 3 = 0
  | None => False
  end.
Proof.
  refine (registry_from_variables JsonLite.loads Sample.three_groups 3 _ _ _).
  - compute_now.
  - by_cases_on_index.
  - compute_now.
Defined.

Lemma empty_numbered_name_is_fatal_witness :
  ServerConfigManager.__init__ JsonLite.loads Fixture.empty_first_name
  = Some (inl (ValueError "Server name is required")).
Proof.
  refine (empty_numbered_name_is_fatal JsonLite.loads Fixture.empty_first_name 1
            _ _ _ _ _).
  - compute_now.
  - lia.
  - intros j Hj. assert (j = 1) as -> by lia. compute_now.
  - intros j Hj. lia.
  - compute_now.
Defined.

(** X24.  Construction always ends.  The [while True] scan over the
    numbered groups finds a gap after at most as many groups as the
    environment has variables, so for every environment and every
    decoder [ServerConfigManager()] returns a registry or raises. *)
Theorem construction_always_ends
    (json_loads : string -> option pyval) (env : gmap string string) :
  exists outcome : exn + ServerConfigManager.t,
    ServerConfigManager.__init__ json_loads env = Some outcome
    /\ match outcome with
       | inr m => registry_ok m
       | inl _ => True
       end.
Proof.
  destruct (LoaderFacts._load_configurations_total json_loads env empty)
    as [outcome Houtcome].
  exists outcome. split; [exact Houtcome|].
  destruct outcome as [e|m]; [exact I|].
  exact (init_registry_ok json_loads env m Houtcome).
Qed.
